(** * Pre-assessment webhook receiver

    A shallow embedding of [preassessment_webhook.py]: one FastAPI process
    that validates a JSON body against [PreassessmentWebhookPayload], logs
    it, appends a dict to the module-level list [received_webhooks], and
    serves read, clear and health endpoints over that list.

    The handlers are written in a small state-and-exception monad over the
    process state [World].  The wall clock ([datetime.utcnow]), the points
    at which an operation may raise, and the nesting the JSON reader and
    the writer of a validation report can take are supplied by an
    environment [Env].

    Conventions of the model:
    - a Python [str] is held as its bytes in UTF-8 with surrogate code
      points passed through (a lone U+D800 is the bytes ED A0 80); such a
      string cannot be encoded as UTF-8, and an answer that holds one
      cannot be sent;
    - a request body is a JSON document; the reader refuses an integer of
      more than 4300 digits and a document nested deeper than the
      environment allows, and the request is then answered with 400;
    - a field annotated [str] accepts a JSON string and nothing else, and
      a validation report echoes, for each failing location, the input
      found there;
    - every call of the logger, every [datetime.utcnow()] and the [append]
      of the POST handler is a point at which the environment may raise
      an exception, the [logger.error] of the [except] clause included;
    - whatever a handler returns is encoded as JSON after the handler has
      run: when it cannot be encoded the client gets the plain 500 of the
      server, and what the handler did stays done;
    - requests are served one at a time. *)

From stdpp Require Import base list strings pretty.

(** ** JSON values, as produced by [json.loads] and consumed by the
    framework's response encoder. *)

(** A Python [float] as the reader returns it: the literals [NaN],
    [Infinity] and [-Infinity] are read, and so is a number too large for
    a double, which becomes an infinity. *)
Inductive pyfloat : Type :=
  | Finite (repr : string)
  | NaN
  | PosInf
  | NegInf.

#[warnings="-register-all"] Inductive json : Type :=
  | JNull
  | JBool (b : bool)
  | JInt (z : Z)
  | JFloat (f : pyfloat)
  | JStr (s : string)
  | JArr (items : list json)
  | JObj (members : list (string * json)).

(** A Python [dict] with string keys, in insertion order. *)
Abbreviation dict := (list (string * json)).

(** [d.get(k)] on the members a JSON object was read from: when a key is
    repeated in the text, [json.loads] keeps the last binding. *)
Fixpoint dict_get (k : string) (d : dict) : option json :=
  match d with
  | [] => None
  | (k', v) :: rest =>
      match dict_get k rest with
      | Some v' => Some v'
      | None => if String.eqb k k' then Some v else None
      end
  end.

Definition dict_keys (d : dict) : list string := d.*1.

(** Subscripting a JSON value that may not be an object. *)
Definition json_get (k : string) (j : json) : option json :=
  match j with
  | JObj d => dict_get k d
  | _ => None
  end.

(** ** Strings *)

(** Python's [s * n]. *)
Fixpoint str_mul (s : string) (n : nat) : string :=
  match n with
  | O => ""
  | S n' => s +:+ str_mul s n'
  end.

(** [s.zfill(width)] for a string of digits. *)
Definition zfill (width : nat) (s : string) : string :=
  str_mul "0" (width - String.length s) +:+ s.

(** The byte ED followed by a byte from A0 to BF starts the three bytes
    of a surrogate code point (U+D800 to U+DFFF). *)
Definition starts_surrogate (a b : Ascii.ascii) : bool :=
  (Ascii.N_of_ascii a =? 237)%N &&
  (160 <=? Ascii.N_of_ascii b)%N && (Ascii.N_of_ascii b <=? 191)%N.

Fixpoint has_surrogate (s : string) : bool :=
  match s with
  | EmptyString => false
  | String a rest =>
      match rest with
      | EmptyString => false
      | String b _ => starts_surrogate a b
      end || has_surrogate rest
  end.

(** [s.encode("utf-8")] succeeds. *)
Definition utf8_encodable (s : string) : bool := negb (has_surrogate s).

(** ** What the JSON reader and the response encoder accept *)

Definition float_is_finite (f : pyfloat) : bool :=
  match f with
  | Finite _ => true
  | _ => false
  end.

(** [json.dumps(j, ensure_ascii=False, allow_nan=False).encode("utf-8")]
    succeeds: no string or key holds a surrogate and no float is a NaN or
    an infinity. *)
Fixpoint json_encodable (j : json) : bool :=
  match j with
  | JNull | JBool _ | JInt _ => true
  | JFloat f => float_is_finite f
  | JStr s => utf8_encodable s
  | JArr items => forallb json_encodable items
  | JObj members =>
      forallb (fun kv => utf8_encodable kv.1 && json_encodable kv.2) members
  end.

(** Nesting of arrays and objects. *)
Fixpoint json_depth (j : json) : nat :=
  match j with
  | JArr items => S (foldr Nat.max O (map json_depth items))
  | JObj members => S (foldr Nat.max O (map (fun kv => json_depth kv.2) members))
  | _ => O
  end.

(** Python converts a decimal literal to an [int] only up to 4300 digits. *)
Definition int_max_str_digits : Z := 4300.

Definition int_readable (z : Z) : bool := (Z.abs z <? 10 ^ int_max_str_digits)%Z.

Fixpoint json_ints_readable (j : json) : bool :=
  match j with
  | JInt z => int_readable z
  | JArr items => forallb json_ints_readable items
  | JObj members => forallb (fun kv => json_ints_readable kv.2) members
  | _ => true
  end.

(** ** [datetime] *)

Record datetime : Type := mk_datetime {
  year : N; month : N; day : N;
  hour : N; minute : N; second : N; microsecond : N
}.

(** [datetime.isoformat()] of a naive datetime with the default separator
    and [timespec='auto']: the fraction is printed only when the
    microsecond field is not zero. *)
Definition isoformat (d : datetime) : string :=
  zfill 4 (pretty (year d)) +:+ "-" +:+ zfill 2 (pretty (month d)) +:+ "-" +:+
  zfill 2 (pretty (day d)) +:+ "T" +:+ zfill 2 (pretty (hour d)) +:+ ":" +:+
  zfill 2 (pretty (minute d)) +:+ ":" +:+ zfill 2 (pretty (second d)) +:+
  (if decide (microsecond d = 0%N) then ""
   else "." +:+ zfill 6 (pretty (microsecond d))).

(** ** Request validation: [PreassessmentWebhookPayload] *)

Record PreassessmentWebhookPayload : Type := mk_payload {
  organization_id : string;
  preassessment_id : string;
  regulation_id : string
}.

Definition required_fields : list string :=
  ["organization_id"; "preassessment_id"; "regulation_id"].

Inductive error_kind : Type :=
  | missing          (* the key, or the whole body, is absent *)
  | string_type      (* the value is not a string *)
  | model_type.      (* the body is not an object *)

(** One entry of a validation report: where, what, and the input found
    there (the enclosing object for a missing key). *)
Record validation_error : Type := mk_error {
  loc : list string;
  kind : error_kind;
  input : json
}.

(** A field annotated [str]: the key must be present and bound to a JSON
    string; numbers, booleans, [null], arrays and objects are refused. *)
Definition validate_str (d : dict) (field : string) : validation_error + string :=
  match dict_get field d with
  | None => inl (mk_error ["body"; field] missing (JObj d))
  | Some (JStr s) => inr s
  | Some v => inl (mk_error ["body"; field] string_type v)
  end.

Definition error_of {A} (r : validation_error + A) : list validation_error :=
  match r with
  | inl e => [e]
  | inr _ => []
  end.

(** The body parameter of the POST route.  Every field is checked and all
    failures are reported together; keys that the model does not declare
    are ignored.  A body that is [null] counts as no body. *)
Definition validate (body : json) : list validation_error + PreassessmentWebhookPayload :=
  match body with
  | JObj d =>
      let ro := validate_str d "organization_id" in
      let rp := validate_str d "preassessment_id" in
      let rr := validate_str d "regulation_id" in
      match ro, rp, rr with
      | inr o, inr p, inr r => inr (mk_payload o p r)
      | _, _, _ => inl (error_of ro ++ error_of rp ++ error_of rr)
      end
  | JNull => inl [mk_error ["body"] missing JNull]
  | _ => inl [mk_error ["body"] model_type body]
  end.

(** ** Process state and environment *)

Inductive level : Type := INFO | ERROR.

(** The state of the server process: the module-level list
    [received_webhooks], what [logger] has emitted, and how many clock
    reads and how many operations that may raise have been performed. *)
Record World : Type := mk_world {
  received_webhooks : list dict;
  log : list (level * string);
  clock_reads : nat;
  steps : nat
}.

(** What the process does not control: the value of each successive
    [datetime.utcnow()], which operation (if any) raises, with the text
    of the exception, and how deep a document the JSON reader can read
    and a validation report can echo before the interpreter's recursion
    limit is reached. *)
Record Env : Type := mk_env {
  utcnow_at : nat -> datetime;
  raises_at : nat -> option string;
  max_read_depth : nat;
  max_echo_depth : nat
}.

Definition initial_world : World := mk_world [] [] 0 0.

Definition set_received_webhooks (l : list dict) (w : World) : World :=
  mk_world l (log w) (clock_reads w) (steps w).
Definition emit (lv : level) (msg : string) (w : World) : World :=
  mk_world (received_webhooks w) (log w ++ [(lv, msg)]) (clock_reads w) (steps w).
Definition tick_clock (w : World) : World :=
  mk_world (received_webhooks w) (log w) (S (clock_reads w)) (steps w).
Definition tick_step (w : World) : World :=
  mk_world (received_webhooks w) (log w) (clock_reads w) (S (steps w)).

(** [await request.json()] returns: the document holds no integer beyond
    the digit limit and is not nested too deep. *)
Definition json_readable (env : Env) (body : json) : bool :=
  json_ints_readable body && (json_depth body <=? max_read_depth env)%nat.

(** The validation report can be sent: every echoed input can be encoded
    and is not nested too deep. *)
Definition report_encodable (env : Env) (errors : list validation_error) : bool :=
  forallb (fun e => json_encodable (input e) &&
                    (json_depth (input e) <=? max_echo_depth env)%nat) errors.

(** ** Exceptions and the handler monad *)

Inductive exn : Type :=
  | Exception (msg : string)
  | HTTPException (status_code : nat) (detail : string).

(** [str(e)] *)
Definition exn_str (e : exn) : string :=
  match e with
  | Exception msg => msg
  | HTTPException _ detail => detail
  end.

Inductive outcome (A : Type) : Type :=
  | Returned (a : A)
  | Raised (e : exn).
Arguments Returned {A} a.
Arguments Raised {A} e.

(** A computation runs in a world and leaves a world behind, whether it
    returns or raises: what was mutated before an exception stays mutated. *)
Definition M (A : Type) : Type := World -> outcome A * World.

Definition ret {A} (a : A) : M A := fun w => (Returned a, w).

Definition bind {A B} (m : M A) (k : A -> M B) : M B :=
  fun w =>
    match m w with
    | (Returned a, w') => k a w'
    | (Raised e, w') => (Raised e, w')
    end.

Definition raise {A} (e : exn) : M A := fun w => (Raised e, w).

(** [try: m / except Exception as e: handler e] -- every exception of the
    model is an instance of [Exception].  An exception raised by the
    handler itself leaves the clause. *)
Definition try_except {A} (m : M A) (handler : exn -> M A) : M A :=
  fun w =>
    match m w with
    | (Returned a, w') => (Returned a, w')
    | (Raised e, w') => handler e w'
    end.

Declare Scope py_scope.
Delimit Scope py_scope with py.
Notation "x <- m ;; k" := (bind m (fun x => k))
  (at level 100, m at next level, right associativity) : py_scope.
Notation "m ;; k" := (bind m (fun _ => k))
  (at level 100, right associativity) : py_scope.
Open Scope py_scope.

Section Handlers.

Variable env : Env.

(** Each call of the logger, each clock read and the append is a point at
    which the environment may make the call raise. *)
Definition fault_point : M unit :=
  fun w =>
    match raises_at env (steps w) with
    | Some msg => (Raised (Exception msg), tick_step w)
    | None => (Returned tt, tick_step w)
    end.

(** [logger.info(msg)] *)
Definition logger_info (msg : string) : M unit :=
  fault_point ;; fun w => (Returned tt, emit INFO msg w).

(** [logger.error(msg)], in the [except] clause: the same logger. *)
Definition logger_error (msg : string) : M unit :=
  fault_point ;; fun w => (Returned tt, emit ERROR msg w).

(** [datetime.utcnow()] *)
Definition utcnow : M datetime :=
  fault_point ;;
  fun w => (Returned (utcnow_at env (clock_reads w)), tick_clock w).

(** [received_webhooks.append(d)] *)
Definition received_webhooks_append (d : dict) : M unit :=
  fault_point ;;
  fun w => (Returned tt, set_received_webhooks (received_webhooks w ++ [d]) w).

(** [len(received_webhooks)] *)
Definition received_webhooks_len : M Z :=
  fun w => (Returned (Z.of_nat (length (received_webhooks w))), w).

(** ** Route handlers *)

Definition root : M json :=
  ret (JObj [("message", JStr "Pre-assessment Webhook Receiver");
             ("version", JStr "1.0.0");
             ("endpoint", JStr "POST /webhook/preassessment")]).

Definition webhook_data_of (ts : string) (payload : PreassessmentWebhookPayload) : dict :=
  [("timestamp", JStr ts);
   ("organization_id", JStr (organization_id payload));
   ("preassessment_id", JStr (preassessment_id payload));
   ("regulation_id", JStr (regulation_id payload))].

Definition payload_echo (payload : PreassessmentWebhookPayload) : dict :=
  [("organization_id", JStr (organization_id payload));
   ("preassessment_id", JStr (preassessment_id payload));
   ("regulation_id", JStr (regulation_id payload))].

Definition receive_try_body (payload : PreassessmentWebhookPayload) : M json :=
  logger_info (str_mul "=" 80) ;;
  logger_info "PRE-ASSESSMENT WEBHOOK RECEIVED" ;;
  logger_info (str_mul "=" 80) ;;
  now <- utcnow ;;
  logger_info ("Timestamp: " +:+ isoformat now) ;;
  logger_info ("Organization ID: " +:+ organization_id payload) ;;
  logger_info ("Pre-assessment ID: " +:+ preassessment_id payload) ;;
  logger_info ("Regulation ID: " +:+ regulation_id payload) ;;
  stamp <- utcnow ;;
  let webhook_data := webhook_data_of (isoformat stamp) payload in
  received_webhooks_append webhook_data ;;
  logger_info (str_mul "=" 80) ;;
  logger_info "WEBHOOK RECEIVED SUCCESSFULLY" ;;
  logger_info (str_mul "=" 80) ;;
  received_at <- utcnow ;;
  ret (JObj [("status", JStr "success");
             ("message", JStr "Webhook received successfully");
             ("received_at", JStr (isoformat received_at));
             ("payload", JObj (payload_echo payload))]).

Definition receive_preassessment_webhook (payload : PreassessmentWebhookPayload) : M json :=
  try_except (receive_try_body payload)
    (fun e =>
       logger_error ("Error processing webhook: " +:+ exn_str e) ;;
       raise (HTTPException 500 ("Failed to process webhook: " +:+ exn_str e))).

Definition get_received_webhooks : M json :=
  n <- received_webhooks_len ;;
  fun w => (Returned (JObj [("total_received", JInt n);
                            ("webhooks", JArr (JObj <$> received_webhooks w))]), w).

Definition clear_received_webhooks : M json :=
  fun w =>
    let count := length (received_webhooks w) in
    (Returned (JObj [("status", JStr "success");
                     ("message", JStr ("Cleared " +:+ pretty count +:+ " webhooks"))]),
     set_received_webhooks [] w).

Definition health_check : M json :=
  n <- received_webhooks_len ;;
  ret (JObj [("status", JStr "healthy"); ("webhooks_received", JInt n)]).

(** ** The HTTP layer *)

Inductive request : Type :=
  | GET_root
  | POST_webhook_preassessment (body : json)
  | GET_webhook_received
  | DELETE_webhook_received
  | GET_health.

(** What the client sees: a JSON answer, the validation report that the
    framework sends with status 422, or a plain text answer. *)
Inductive response : Type :=
  | JSONResponse (status : nat) (content : json)
  | ValidationErrorResponse (errors : list validation_error)
  | PlainTextResponse (status : nat) (text : string).

Definition status_code_of (r : response) : nat :=
  match r with
  | JSONResponse status _ => status
  | ValidationErrorResponse _ => 422
  | PlainTextResponse status _ => status
  end.

(** What the server sends when an exception escapes the application. *)
Definition internal_server_error : response :=
  PlainTextResponse 500 "Internal Server Error".

(** [JSONResponse(content, status_code)]: the content is encoded when the
    response is built; when that fails the exception escapes. *)
Definition send (status : nat) (content : json) : response :=
  if json_encodable content then JSONResponse status content
  else internal_server_error.

(** A returned value is sent with status 200; an [HTTPException] with its
    own status and [{"detail": ...}]; anything else that escapes a handler
    is the plain 500. *)
Definition respond (m : M json) : World -> response * World :=
  fun w =>
    match m w with
    | (Returned body, w') => (send 200 body, w')
    | (Raised (HTTPException status detail), w') =>
        (send status (JObj [("detail", JStr detail)]), w')
    | (Raised (Exception _), w') => (internal_server_error, w')
    end.

(** The body is read, then validated, and only then is the handler run. *)
Definition handle (req : request) : World -> response * World :=
  match req with
  | GET_root => respond root
  | POST_webhook_preassessment body =>
      if json_readable env body then
        match validate body with
        | inl errors =>
            fun w =>
              (if report_encodable env errors
               then ValidationErrorResponse errors
               else internal_server_error, w)
        | inr payload => respond (receive_preassessment_webhook payload)
        end
      else
        fun w =>
          (JSONResponse 400
             (JObj [("detail", JStr "There was an error parsing the body")]), w)
  | GET_webhook_received => respond get_received_webhooks
  | DELETE_webhook_received => respond clear_received_webhooks
  | GET_health => respond health_check
  end.

(** Requests served one after the other. *)
Fixpoint serve (reqs : list request) (w : World) : list response * World :=
  match reqs with
  | [] => ([], w)
  | req :: rest =>
      let '(r, w') := handle req w in
      let '(rs, w'') := serve rest w' in
      (r :: rs, w'')
  end.

End Handlers.

Arguments isoformat : simpl never.
Arguments str_mul : simpl never.
Arguments pretty : simpl never.

(** ** Vocabulary of the specification *)

(** Number of stored records. *)
Definition store_count (w : World) : nat := length (received_webhooks w).

(** A valid payload: a JSON object binding each of the three required
    keys to a string; [p] holds the three strings. *)
Definition valid_payload (body : json) (p : PreassessmentWebhookPayload) : Prop :=
  json_get "organization_id" body = Some (JStr (organization_id p)) /\
  json_get "preassessment_id" body = Some (JStr (preassessment_id p)) /\
  json_get "regulation_id" body = Some (JStr (regulation_id p)).

Definition field_is_str (k : string) (body : json) : bool :=
  match json_get k body with
  | Some (JStr _) => true
  | _ => false
  end.

(** A body in which some required field is missing or is not a string
    (a body that is not an object has no field at all). *)
Definition invalid_body (body : json) : Prop :=
  exists k, k ∈ required_fields /\ field_is_str k body = false.

(** Reading a response. *)
Definition content_of (r : response) : option json :=
  match r with
  | JSONResponse _ content => Some content
  | _ => None
  end.

Definition response_field (k : string) (r : response) : option json :=
  content_of r ≫= json_get k.


(** The three identifiers of a payload can be encoded as UTF-8. *)
Definition payload_encodable (p : PreassessmentWebhookPayload) : bool :=
  utf8_encodable (organization_id p) && utf8_encodable (preassessment_id p) &&
  utf8_encodable (regulation_id p).

(** Every stored record can be encoded. *)
Definition store_encodable (w : World) : bool :=
  forallb (fun d => json_encodable (JObj d)) (received_webhooks w).

(** A string of bytes below 128. *)
Fixpoint ascii_only (s : string) : bool :=
  match s with
  | EmptyString => true
  | String a rest => (Ascii.N_of_ascii a <? 128)%N && ascii_only rest
  end.

(** [first_fault env start n] looks at the [n] operations numbered
    [start], [start + 1], ...: it returns the position (counted from 0
    within these [n]) of the first one that raises, with the exception
    text, or [None] when none of them raises. *)
Fixpoint first_fault_from (env : Env) (k start n : nat) : option (nat * string) :=
  match n with
  | O => None
  | S n' =>
      match raises_at env start with
      | Some msg => Some (k, msg)
      | None => first_fault_from env (S k) (S start) n'
      end
  end.

Definition first_fault (env : Env) (start n : nat) : option (nat * string) :=
  first_fault_from env 0 start n.

(** The [try] body of the POST handler performs 14 operations; the
    append is the tenth (position 9). *)
Definition try_body_ops : nat := 14.
Definition append_position : nat := 9.

(** The record a POST stores and the payload its answer echoes, key by
    key. *)
Definition expected_record (ts : string) (p : PreassessmentWebhookPayload) : dict :=
  [("timestamp", JStr ts);
   ("organization_id", JStr (organization_id p));
   ("preassessment_id", JStr (preassessment_id p));
   ("regulation_id", JStr (regulation_id p))].

Definition expected_echo (p : PreassessmentWebhookPayload) : dict :=
  [("organization_id", JStr (organization_id p));
   ("preassessment_id", JStr (preassessment_id p));
   ("regulation_id", JStr (regulation_id p))].

Definition success_body (received_at : string) (p : PreassessmentWebhookPayload) : json :=
  JObj [("status", JStr "success");
        ("message", JStr "Webhook received successfully");
        ("received_at", JStr received_at);
        ("payload", JObj (expected_echo p))].

Definition error_body (msg : string) : json :=
  JObj [("detail", JStr ("Failed to process webhook: " +:+ msg))].

Definition unreadable_body_answer : response :=
  JSONResponse 400 (JObj [("detail", JStr "There was an error parsing the body")]).

(** The ten INFO lines of a successful request; [now] is the clock value
    read for the log, the first of the three reads. *)
Definition success_log (now : string) (payload : PreassessmentWebhookPayload)
  : list (level * string) :=
  [(INFO, str_mul "=" 80);
   (INFO, "PRE-ASSESSMENT WEBHOOK RECEIVED");
   (INFO, str_mul "=" 80);
   (INFO, "Timestamp: " +:+ now);
   (INFO, "Organization ID: " +:+ organization_id payload);
   (INFO, "Pre-assessment ID: " +:+ preassessment_id payload);
   (INFO, "Regulation ID: " +:+ regulation_id payload);
   (INFO, str_mul "=" 80);
   (INFO, "WEBHOOK RECEIVED SUCCESSFULLY");
   (INFO, str_mul "=" 80)].

(** The timestamp stored by a request started in world [w]: the second
    clock read of the request. *)
Definition stored_timestamp (env : Env) (w : World) : string :=
  isoformat (utcnow_at env (S (clock_reads w))).

(** The [received_at] of its success response: the third clock read. *)
Definition response_received_at (env : Env) (w : World) : string :=
  isoformat (utcnow_at env (S (S (clock_reads w)))).

Definition stored_record (env : Env) (payload : PreassessmentWebhookPayload)
    (w : World) : dict :=
  expected_record (stored_timestamp env w) payload.

Definition world_after_success (env : Env) (payload : PreassessmentWebhookPayload)
    (w : World) : World :=
  mk_world (received_webhooks w ++ [stored_record env payload w])
           (log w ++ success_log (isoformat (utcnow_at env (clock_reads w))) payload)
           (3 + clock_reads w)
           (try_body_ops + steps w).

(** The store a request leaves behind when its operation number [k] is
    the first to raise. *)
Definition store_after_fault (env : Env) (k : nat)
    (payload : PreassessmentWebhookPayload) (w : World) : list dict :=
  if (k <=? append_position)%nat then received_webhooks w
  else received_webhooks w ++ [stored_record env payload w].

Definition cleared_body (n : nat) : json :=
  JObj [("status", JStr "success");
        ("message", JStr ("Cleared " +:+ pretty n +:+ " webhooks"))].

(** Invariants on stored records. *)
Definition str_field (k : string) (d : dict) : bool :=
  match dict_get k d with
  | Some (JStr _) => true
  | _ => false
  end.

Definition nonempty_str_field (k : string) (d : dict) : bool :=
  match dict_get k d with
  | Some (JStr s) => negb (String.eqb s "")
  | _ => false
  end.

(** The three identifiers and the timestamp are present and are strings. *)
Definition record_inv (d : dict) : bool :=
  str_field "organization_id" d && str_field "preassessment_id" d &&
  str_field "regulation_id" d && str_field "timestamp" d.

(** The same with the identifiers required to be non-empty. *)
Definition nonempty_record_inv (d : dict) : bool :=
  nonempty_str_field "organization_id" d && nonempty_str_field "preassessment_id" d &&
  nonempty_str_field "regulation_id" d && str_field "timestamp" d.

Definition store_inv (w : World) : Prop :=
  Forall (fun d => record_inv d = true) (received_webhooks w).

Definition nonempty_store_inv (w : World) : Prop :=
  Forall (fun d => nonempty_record_inv d = true) (received_webhooks w).

(** The timestamp of the most recently stored record. *)
Definition last_stored_timestamp (w : World) : option json :=
  last (received_webhooks w) ≫= dict_get "timestamp".

(** "The response's [received_at] is the timestamp stored by the same
    request." *)
Definition echoes_stored_timestamp (env : Env) (body : json) (w : World) : Prop :=
  let rw := handle env (POST_webhook_preassessment body) w in
  exists ts, response_field "received_at" rw.1 = Some (JStr ts) /\
             last_stored_timestamp rw.2 = Some (JStr ts).

(** "The invariant with non-empty identifiers is kept by request [req]
    in world [w]." *)
Definition keeps_nonempty_store_inv (env : Env) (req : request) (w : World) : Prop :=
  nonempty_store_inv w -> nonempty_store_inv (handle env req w).2.

(** "A POST answered with a server error leaves the store as it was." *)
Definition failure_leaves_store_unchanged (env : Env) (body : json) (w : World) : Prop :=
  let rw := handle env (POST_webhook_preassessment body) w in
  status_code_of rw.1 = 500%nat -> received_webhooks rw.2 = received_webhooks w.

(** "The POST adds one record, and GET /webhook/received lists the
    fields of the payload and a timestamp as its last element." *)
Definition lists_payload_last (env : Env) (body : json)
    (p : PreassessmentWebhookPayload) (w : World) : Prop :=
  let rw := handle env (POST_webhook_preassessment body) w in
  let g := (handle env GET_webhook_received rw.2).1 in
  store_count rw.2 = S (store_count w) /\
  exists ts items,
    response_field "webhooks" g = Some (JArr items) /\
    last items = Some (JObj (expected_record ts p)).


(** "GET /health and GET /webhook/received report the same count, the
    number of stored records." *)
Definition counts_agree (env : Env) (w : World) : Prop :=
  exists n,
    response_field "webhooks_received" (handle env GET_health w).1 = Some (JInt n) /\
    response_field "total_received" (handle env GET_webhook_received w).1
      = Some (JInt n) /\
    n = Z.of_nat (store_count w).

(** ** Vocabulary for the whole service *)

(** The operations of the [try] body of the POST handler, in program
    order: [logger.info], [datetime.utcnow()] and the [append]. *)
Inductive op_kind : Type := op_info | op_clock | op_append.

Definition try_body_trace : list op_kind :=
  [op_info; op_info; op_info; op_clock;
   op_info; op_info; op_info; op_info;
   op_clock; op_append;
   op_info; op_info; op_info; op_clock].

Definition is_info (o : op_kind) : bool :=
  match o with op_info => true | _ => false end.
Definition is_clock (o : op_kind) : bool :=
  match o with op_clock => true | _ => false end.

(** How many [logger.info] calls, and how many clock reads, come before
    operation number [k]. *)
Definition infos_before (k : nat) : nat :=
  length (List.filter is_info (take k try_body_trace)).
Definition clocks_before (k : nat) : nat :=
  length (List.filter is_clock (take k try_body_trace)).

Definition error_line (msg : string) : level * string :=
  (ERROR, "Error processing webhook: " +:+ msg).

(** When operation number [k] of the [try] body has raised, the
    [logger.error] of the [except] clause is the next operation: whether
    it raises too. *)
Definition except_clause_raises (env : Env) (k : nat) (w : World) : option string :=
  raises_at env (S k + steps w).

(** The world in which the [except] clause starts when operation number
    [k] of the [try] body is the first to raise. *)
Definition world_before_except (env : Env) (k : nat)
    (payload : PreassessmentWebhookPayload) (w : World) : World :=
  mk_world (store_after_fault env k payload w)
           (log w ++
            take (infos_before k)
              (success_log (isoformat (utcnow_at env (clock_reads w))) payload))
           (clocks_before k + clock_reads w)
           (S k + steps w).

(** The world a POST leaves behind when its operation number [k] is the
    first to raise, with text [msg]: the ERROR line is there unless
    [logger.error] raised as well. *)
Definition world_after_fault (env : Env) (k : nat) (msg : string)
    (payload : PreassessmentWebhookPayload) (w : World) : World :=
  mk_world (store_after_fault env k payload w)
           (log w ++
            take (infos_before k)
              (success_log (isoformat (utcnow_at env (clock_reads w))) payload) ++
            match except_clause_raises env k w with
            | None => [error_line msg]
            | Some _ => []
            end)
           (clocks_before k + clock_reads w)
           (S (S k) + steps w).

(** And the answer it gives. *)
Definition answer_after_fault (env : Env) (k : nat) (msg : string) (w : World)
  : response :=
  match except_clause_raises env k w with
  | None => send 500 (error_body msg)
  | Some _ => internal_server_error
  end.


Definition is_post (req : request) : bool :=
  match req with
  | POST_webhook_preassessment _ => true
  | _ => false
  end.



(** The record stored by the POST number [i] (from 0) of a run of
    successful POSTs started in world [w]: each request reads the clock
    three times and stores its second read. *)
Definition nth_record (env : Env) (w : World) (i : nat)
    (p : PreassessmentWebhookPayload) : dict :=
  expected_record (isoformat (utcnow_at env (S (3 * i + clock_reads w)))) p.

(** A dict of the shape built by the POST handler. *)
Definition is_webhook_record (d : dict) : Prop :=
  exists ts p, d = webhook_data_of ts p.

(** The values a [datetime] can hold. *)
Definition valid_datetime (d : datetime) : Prop :=
  (1 <= year d <= 9999)%N /\ (1 <= month d <= 12)%N /\ (1 <= day d <= 31)%N /\
  (hour d <= 23)%N /\ (minute d <= 59)%N /\ (second d <= 59)%N /\
  (microsecond d <= 999999)%N.

(** ** Sample environments and requests *)

(** A clock that advances by one microsecond at every read. *)
Definition sample_clock (i : nat) : datetime :=
  mk_datetime 2024 5 17 9 30 0 (N.of_nat i).

Definition quiet_env : Env := mk_env sample_clock (fun _ => None) 900 900.

(** An environment in which operation number [k] raises. *)
Definition faulty_env (k : nat) (msg : string) : Env :=
  mk_env sample_clock (fun i => if (i =? k)%nat then Some msg else None) 900 900.

(** An environment in which every operation from number [k] on raises. *)
Definition broken_env (k : nat) (msg : string) : Env :=
  mk_env sample_clock (fun i => if (k <=? i)%nat then Some msg else None) 900 900.

Definition payload_of (o p r : string) : json :=
  JObj [("organization_id", JStr o); ("preassessment_id", JStr p);
        ("regulation_id", JStr r)].

Definition payload1 : PreassessmentWebhookPayload := mk_payload "org1" "pa1" "reg1".
Definition payload2 : PreassessmentWebhookPayload := mk_payload "org2" "pa2" "reg2".

Definition body1 : json := payload_of "org1" "pa1" "reg1".
Definition body2 : json := payload_of "org2" "pa2" "reg2".
Definition body_empty_ids : json := payload_of "" "" "".

Definition body_wrong_type : json :=
  JObj [("organization_id", JInt 42); ("preassessment_id", JStr "pa1");
        ("regulation_id", JNull)].

(** The lone surrogate U+D800, as JSON writes it with the escape \ud800. *)
Definition lone_surrogate : string :=
  String (Ascii.ascii_of_nat 237)
    (String (Ascii.ascii_of_nat 160) (String (Ascii.ascii_of_nat 128) "")).

Definition payload_surrogate : PreassessmentWebhookPayload :=
  mk_payload lone_surrogate "pa1" "reg1".
Definition body_surrogate : json := payload_of lone_surrogate "pa1" "reg1".


(** The three identifiers and one more key bound to an integer of 4301
    digits. *)
Definition body_huge_int : json :=
  JObj [("organization_id", JStr "org1"); ("preassessment_id", JStr "pa1");
        ("regulation_id", JStr "reg1"); ("serial", JInt (10 ^ 4300))].

(** A world whose store holds one record. *)
Definition world_one : World :=
  mk_world [webhook_data_of "2024-05-17T09:29:59" payload1] [] 0 0.

Definition body1_reordered : dict :=
  [("source", JStr "crm"); ("regulation_id", JStr "reg1");
   ("preassessment_id", JStr "pa1"); ("organization_id", JStr "org1")].

(** * Properties *)

(** ** Validation *)

Lemma validate_str_inr d k s :
  validate_str d k = inr s <-> dict_get k d = Some (JStr s).
Proof.
  unfold validate_str.
  destruct (dict_get k d) as [[]|]; split; intros H; inversion H; reflexivity.
Qed.


Lemma validate_valid body p :
  valid_payload body p -> validate body = inr p.
Proof.
  intros (Ho & Hp & Hr). destruct body; try discriminate Ho.
  cbn [json_get] in *. unfold validate.
  apply validate_str_inr in Ho, Hp, Hr. rewrite Ho, Hp, Hr.
  destruct p; reflexivity.
Qed.

Lemma validate_inr_valid body p :
  validate body = inr p -> valid_payload body p.
Proof.
  destruct body; try discriminate. unfold validate.
  destruct (validate_str members "organization_id") as [?|o] eqn:Ho;
    destruct (validate_str members "preassessment_id") as [?|q] eqn:Hp;
    destruct (validate_str members "regulation_id") as [?|r] eqn:Hr;
    cbn; intros H; inversion H; subst.
  apply validate_str_inr in Ho, Hp, Hr. repeat split; assumption.
Qed.


Ltac in_required_fields := unfold required_fields; repeat constructor.

(** Every body is either a valid payload or an invalid body. *)
Lemma validate_cases body :
  (exists p, valid_payload body p) \/ invalid_body body.
Proof.
  destruct (validate body) as [errors|p] eqn:Hv.
  - right. destruct body;
      try (exists "organization_id"; split; [in_required_fields | reflexivity]).
    unfold validate in Hv. unfold invalid_body, field_is_str, json_get.
    unfold validate_str in Hv.
    destruct (dict_get "organization_id" members) as [[]|] eqn:Ho;
      try (exists "organization_id"; rewrite Ho; split; [in_required_fields | reflexivity]).
    destruct (dict_get "preassessment_id" members) as [[]|] eqn:Hp;
      try (exists "preassessment_id"; rewrite Hp; split; [in_required_fields | reflexivity]).
    destruct (dict_get "regulation_id" members) as [[]|] eqn:Hr;
      try (exists "regulation_id"; rewrite Hr; split; [in_required_fields | reflexivity]).
    discriminate Hv.
  - left. exists p. apply validate_inr_valid, Hv.
Qed.

(** ** Which operation raises first *)

Lemma first_fault_from_None env k start n :
  first_fault_from env k start n = None <->
  forall i, (i < n)%nat -> raises_at env (start + i) = None.
Proof.
  revert k start. induction n as [|n IH]; intros k start; cbn [first_fault_from].
  - split; [intros _ i Hi; lia | reflexivity].
  - destruct (raises_at env start) as [msg|] eqn:E.
    + split; [discriminate|]. intros H. specialize (H 0%nat).
      rewrite Nat.add_0_r, E in H. discriminate H. lia.
    + rewrite IH. split.
      * intros H [|i] Hi; [rewrite Nat.add_0_r; exact E|].
        rewrite Nat.add_succ_r. apply (H i). lia.
      * intros H i Hi. specialize (H (S i)). rewrite Nat.add_succ_r in H.
        apply H. lia.
Qed.

Lemma first_fault_None env start n :
  first_fault env start n = None <->
  forall i, (i < n)%nat -> raises_at env (start + i) = None.
Proof. apply first_fault_from_None. Qed.

Lemma first_fault_None_app env start a b :
  first_fault env start (a + b) = None ->
  first_fault env start a = None /\ first_fault env (a + start) b = None.
Proof.
  rewrite !first_fault_None. intros H. split.
  - intros i Hi. apply H. lia.
  - intros i Hi. replace (a + start + i)%nat with (start + (a + i))%nat by lia.
    apply H. lia.
Qed.

Lemma first_fault_from_Some env k0 start n k msg :
  first_fault_from env k0 start n = Some (k, msg) ->
  (k0 <= k < k0 + n)%nat /\
  raises_at env (start + (k - k0)) = Some msg /\
  forall i, (i < k - k0)%nat -> raises_at env (start + i) = None.
Proof.
  revert k0 start. induction n as [|n IH]; intros k0 start; cbn [first_fault_from].
  - discriminate.
  - destruct (raises_at env start) as [m|] eqn:E.
    + intros [= <- <-]. rewrite Nat.sub_diag, Nat.add_0_r.
      split; [lia|]. split; [exact E|]. intros i Hi. lia.
    + intros H. apply IH in H as (Hk & Hr & Hn).
      replace (k - k0)%nat with (S (k - S k0)) by lia.
      split; [lia|]. split.
      * rewrite Nat.add_succ_r. exact Hr.
      * intros [|i] Hi; [rewrite Nat.add_0_r; exact E|].
        rewrite Nat.add_succ_r. apply Hn. lia.
Qed.

(** [first_fault] names the first operation that raises. *)
Lemma first_fault_Some env start n k msg :
  first_fault env start n = Some (k, msg) ->
  (k < n)%nat /\
  raises_at env (start + k) = Some msg /\
  forall i, (i < k)%nat -> raises_at env (start + i) = None.
Proof.
  intros H. apply first_fault_from_Some in H.
  rewrite Nat.sub_0_r in H. destruct H as (Hk & Hr & Hn).
  split; [lia|]. split; assumption.
Qed.

Lemma infos_before_le k : (infos_before k <= 10)%nat.
Proof.
  unfold infos_before.
  do 15 (destruct k as [|k]; [vm_compute; lia|]). vm_compute. lia.
Qed.

Lemma clocks_before_le k : (clocks_before k <= 3)%nat.
Proof.
  unfold clocks_before.
  do 15 (destruct k as [|k]; [vm_compute; lia|]). vm_compute. lia.
Qed.

(** ** Strings that can be encoded *)

Lemma string_length_app (s t : string) :
  String.length (s +:+ t) = (String.length s + String.length t)%nat.
Proof.
  induction s as [|a s IH]; [reflexivity|].
  change (S (String.length (s +:+ t)) = S (String.length s + String.length t)).
  rewrite IH. reflexivity.
Qed.

Lemma string_app_inj_r (t s1 s2 : string) : s1 +:+ t = s2 +:+ t -> s1 = s2.
Proof.
  revert s2. induction s1 as [|a s1 IH]; intros [|b s2] H.
  - reflexivity.
  - apply (f_equal String.length) in H.
    rewrite !string_length_app in H. cbn in H. lia.
  - apply (f_equal String.length) in H.
    rewrite !string_length_app in H. cbn in H. lia.
  - change (String a (s1 +:+ t) = String b (s2 +:+ t)) in H.
    injection H as -> H. f_equal. apply IH, H.
Qed.

Lemma starts_surrogate_ascii a b :
  (Ascii.N_of_ascii a <? 128)%N = true -> starts_surrogate a b = false.
Proof.
  intros H. unfold starts_surrogate.
  destruct (Ascii.N_of_ascii a =? 237)%N eqn:E; [|reflexivity].
  apply N.eqb_eq in E. apply N.ltb_lt in H. lia.
Qed.

(** A surrogate cannot start in a run of ASCII bytes. *)
Lemma has_surrogate_app_ascii (a s : string) :
  ascii_only a = true -> has_surrogate (a +:+ s) = has_surrogate s.
Proof.
  induction a as [|c a IH]; [reflexivity|].
  cbn [ascii_only]. intros [Hc Ha]%andb_true_iff.
  change (String c a +:+ s) with (String c (a +:+ s)).
  cbn [has_surrogate]. rewrite (IH Ha).
  destruct (a +:+ s); [reflexivity|].
  rewrite (starts_surrogate_ascii c _ Hc). reflexivity.
Qed.

Lemma ascii_only_encodable (s : string) :
  ascii_only s = true -> utf8_encodable s = true.
Proof.
  unfold utf8_encodable. induction s as [|c s IH]; [reflexivity|].
  cbn [ascii_only has_surrogate]. intros [Hc Hs]%andb_true_iff.
  apply negb_true_iff in IH; [|exact Hs]. rewrite IH.
  destruct s; [reflexivity|].
  rewrite (starts_surrogate_ascii c _ Hc). reflexivity.
Qed.

Lemma utf8_encodable_app_ascii (a s : string) :
  ascii_only a = true -> utf8_encodable (a +:+ s) = utf8_encodable s.
Proof.
  intros H. unfold utf8_encodable. rewrite has_surrogate_app_ascii by exact H.
  reflexivity.
Qed.

Lemma ascii_only_app (s t : string) :
  ascii_only (s +:+ t) = ascii_only s && ascii_only t.
Proof.
  induction s as [|c s IH]; [reflexivity|].
  change (String c s +:+ t) with (String c (s +:+ t)).
  cbn [ascii_only]. rewrite IH, andb_assoc. reflexivity.
Qed.

Lemma ascii_only_str_mul s n :
  ascii_only s = true -> ascii_only (str_mul s n) = true.
Proof.
  intros H. induction n as [|n IH]; [reflexivity|].
  change (str_mul s (S n)) with (s +:+ str_mul s n).
  rewrite ascii_only_app, H, IH. reflexivity.
Qed.

Lemma ascii_only_zfill width s :
  ascii_only s = true -> ascii_only (zfill width s) = true.
Proof.
  intros H. unfold zfill.
  rewrite ascii_only_app, ascii_only_str_mul, H by reflexivity. reflexivity.
Qed.

Lemma pretty_N_char_ascii x :
  (Ascii.N_of_ascii (pretty_N_char x) <? 128)%N = true.
Proof. unfold pretty_N_char. repeat case_match; reflexivity. Qed.

Lemma ascii_only_pretty_N_go width x s :
  (x < 10 ^ N.of_nat width)%N ->
  ascii_only s = true -> ascii_only (pretty_N_go x s) = true.
Proof.
  revert x s. induction width as [|width IH]; intros x s Hx Hs.
  - assert (x = 0%N) as -> by (cbn in Hx; lia).
    rewrite pretty_N_go_0. exact Hs.
  - destruct (decide (x = 0%N)) as [->|Hne].
    + rewrite pretty_N_go_0. exact Hs.
    + rewrite pretty_N_go_step by lia. apply IH.
      * rewrite Nat2N.inj_succ, N.pow_succ_r' in Hx.
        apply N.Div0.div_lt_upper_bound. lia.
      * cbn [ascii_only]. rewrite pretty_N_char_ascii, Hs. reflexivity.
Qed.

Lemma ascii_only_pretty_N (x : N) : ascii_only (pretty x) = true.
Proof.
  unfold pretty, pretty_N. destruct (decide (x = 0%N)); [reflexivity|].
  apply (ascii_only_pretty_N_go (N.to_nat x)); [|reflexivity].
  rewrite N2Nat.id. apply N.pow_gt_lin_r. lia.
Qed.

Lemma ascii_only_pretty_nat (n : nat) : ascii_only (pretty n) = true.
Proof. apply ascii_only_pretty_N. Qed.

Lemma ascii_only_isoformat d : ascii_only (isoformat d) = true.
Proof.
  unfold isoformat.
  rewrite !ascii_only_app, !ascii_only_zfill by apply ascii_only_pretty_N.
  destruct (decide (microsecond d = 0%N)); [reflexivity|].
  rewrite ascii_only_app, ascii_only_zfill by apply ascii_only_pretty_N.
  reflexivity.
Qed.

Lemma utf8_encodable_isoformat d : utf8_encodable (isoformat d) = true.
Proof. apply ascii_only_encodable, ascii_only_isoformat. Qed.

(** ** Answers that can be encoded *)

Lemma record_encodable ts p :
  json_encodable (JObj (expected_record ts p)) = true <->
  utf8_encodable ts = true /\ payload_encodable p = true.
Proof.
  unfold expected_record, payload_encodable.
  cbn [json_encodable forallb fst snd]. rewrite !andb_true_iff.
  intuition (try reflexivity; auto).
Qed.

Lemma success_body_encodable ts p :
  json_encodable (success_body ts p) = true <->
  utf8_encodable ts = true /\ payload_encodable p = true.
Proof.
  unfold success_body, expected_echo, payload_encodable.
  cbn [json_encodable forallb fst snd]. rewrite !andb_true_iff.
  intuition (try reflexivity; auto).
Qed.

Lemma error_body_encodable msg :
  json_encodable (error_body msg) = utf8_encodable msg.
Proof.
  unfold error_body. cbn [json_encodable forallb fst snd].
  rewrite utf8_encodable_app_ascii by reflexivity.
  rewrite andb_true_r. reflexivity.
Qed.

Lemma cleared_body_encodable n : json_encodable (cleared_body n) = true.
Proof.
  unfold cleared_body. cbn [json_encodable forallb fst snd].
  rewrite andb_true_r.
  replace (utf8_encodable ("Cleared " +:+ pretty n +:+ " webhooks")) with true.
  - reflexivity.
  - symmetry. apply ascii_only_encodable.
    rewrite !ascii_only_app, ascii_only_pretty_nat. reflexivity.
Qed.

Lemma forallb_fmap {A B} (f : B -> bool) (g : A -> B) (l : list A) :
  forallb f (g <$> l) = forallb (fun x => f (g x)) l.
Proof. induction l as [|x l IH]; [reflexivity|]. cbn. rewrite IH. reflexivity. Qed.

Lemma received_body_encodable n (store : list dict) :
  json_encodable (JObj [("total_received", JInt n);
                        ("webhooks", JArr (JObj <$> store))])
  = forallb (fun d => json_encodable (JObj d)) store.
Proof.
  cbn [json_encodable forallb fst snd]. rewrite forallb_fmap.
  change (utf8_encodable "total_received") with true.
  change (utf8_encodable "webhooks") with true.
  cbn [andb]. rewrite andb_true_r. reflexivity.
Qed.

(** ** Running the POST handler *)

Lemma world_ext (w1 w2 : World) :
  received_webhooks w1 = received_webhooks w2 ->
  log w1 = log w2 ->
  clock_reads w1 = clock_reads w2 ->
  steps w1 = steps w2 ->
  w1 = w2.
Proof. destruct w1, w2. cbn. intros -> -> -> ->. reflexivity. Qed.

Section Run.

Variable env : Env.

Lemma bind_run {A B} (m : M A) (k : A -> M B) (w : World) :
  bind m k w = match m w with
               | (Returned a, w') => k a w'
               | (Raised e, w') => (Raised e, w')
               end.
Proof. reflexivity. Qed.

Lemma logger_info_run msg w :
  logger_info env msg w =
    match raises_at env (steps w) with
    | Some m => (Raised (Exception m), tick_step w)
    | None => (Returned tt, emit INFO msg (tick_step w))
    end.
Proof.
  unfold logger_info, bind, fault_point.
  destruct (raises_at env (steps w)); reflexivity.
Qed.

Lemma logger_error_run msg w :
  logger_error env msg w =
    match raises_at env (steps w) with
    | Some m => (Raised (Exception m), tick_step w)
    | None => (Returned tt, emit ERROR msg (tick_step w))
    end.
Proof.
  unfold logger_error, bind, fault_point.
  destruct (raises_at env (steps w)); reflexivity.
Qed.

Lemma utcnow_run w :
  utcnow env w =
    match raises_at env (steps w) with
    | Some m => (Raised (Exception m), tick_step w)
    | None => (Returned (utcnow_at env (clock_reads w)), tick_clock (tick_step w))
    end.
Proof.
  unfold utcnow, bind, fault_point.
  destruct (raises_at env (steps w)); reflexivity.
Qed.

Lemma received_webhooks_append_run d w :
  received_webhooks_append env d w =
    match raises_at env (steps w) with
    | Some m => (Raised (Exception m), tick_step w)
    | None => (Returned tt,
               set_received_webhooks (received_webhooks w ++ [d]) (tick_step w))
    end.
Proof.
  unfold received_webhooks_append, bind, fault_point.
  destruct (raises_at env (steps w)); reflexivity.
Qed.

Ltac run_op n :=
  let i := eval cbn [Nat.add] in n in
  rewrite bind_run;
  first [ rewrite logger_info_run
        | rewrite utcnow_run
        | rewrite received_webhooks_append_run ];
  cbn [steps clock_reads received_webhooks log
       tick_step tick_clock emit set_received_webhooks];
  destruct (raises_at env i) as [?msg|] eqn:?.

Ltac fault_world :=
  apply f_equal; apply world_ext;
  cbn [steps clock_reads received_webhooks log world_before_except
       tick_step tick_clock emit set_received_webhooks];
  [ reflexivity
  | first [ symmetry; apply app_nil_r
          | reflexivity
          | rewrite <- !app_assoc; reflexivity ]
  | reflexivity | reflexivity ].

(** The [try] body, operation by operation: what it returns and the world
    it leaves when nothing raises, and the world in which the [except]
    clause starts when operation number [k] raises. *)
Lemma receive_try_body_run payload w :
  receive_try_body env payload w =
    match first_fault env (steps w) try_body_ops with
    | None =>
        (Returned (success_body (response_received_at env w) payload),
         world_after_success env payload w)
    | Some (k, msg) =>
        (Raised (Exception msg), world_before_except env k payload w)
    end.
Proof.
  unfold first_fault, try_body_ops, receive_try_body.
  cbn [first_fault_from].
  run_op (steps w); [fault_world|].
  run_op (1 + steps w)%nat; [fault_world|].
  run_op (2 + steps w)%nat; [fault_world|].
  run_op (3 + steps w)%nat; [fault_world|].
  run_op (4 + steps w)%nat; [fault_world|].
  run_op (5 + steps w)%nat; [fault_world|].
  run_op (6 + steps w)%nat; [fault_world|].
  run_op (7 + steps w)%nat; [fault_world|].
  run_op (8 + steps w)%nat; [fault_world|].
  run_op (9 + steps w)%nat; [fault_world|].
  run_op (10 + steps w)%nat; [fault_world|].
  run_op (11 + steps w)%nat; [fault_world|].
  run_op (12 + steps w)%nat; [fault_world|].
  run_op (13 + steps w)%nat; [fault_world|].
  unfold ret. f_equal. apply world_ext;
    cbn [steps clock_reads received_webhooks log world_after_success
         tick_step tick_clock emit set_received_webhooks];
    [reflexivity | | reflexivity | reflexivity].
  rewrite <- !app_assoc. reflexivity.
Qed.

(** The handler with its [except] clause, and what the client is sent. *)
Lemma respond_receive_run payload w :
  respond (receive_preassessment_webhook env payload) w =
    match first_fault env (steps w) try_body_ops with
    | None =>
        (send 200 (success_body (response_received_at env w) payload),
         world_after_success env payload w)
    | Some (k, msg) =>
        (answer_after_fault env k msg w, world_after_fault env k msg payload w)
    end.
Proof.
  unfold respond, receive_preassessment_webhook, try_except.
  rewrite receive_try_body_run.
  destruct (first_fault env (steps w) try_body_ops) as [[k msg]|]; [|reflexivity].
  rewrite bind_run, logger_error_run.
  unfold answer_after_fault, world_after_fault, except_clause_raises.
  cbn [steps world_before_except exn_str].
  destruct (raises_at env (S k + steps w)) as [msg2|].
  - f_equal. apply world_ext;
      cbn [steps clock_reads received_webhooks log world_before_except tick_step];
      [reflexivity | | reflexivity | reflexivity].
    rewrite app_nil_r. reflexivity.
  - unfold raise. f_equal. apply world_ext;
      cbn [steps clock_reads received_webhooks log world_before_except
           tick_step emit];
      [reflexivity | | reflexivity | reflexivity].
    rewrite <- app_assoc. reflexivity.
Qed.

Lemma post_run body p w :
  json_readable env body = true ->
  valid_payload body p ->
  handle env (POST_webhook_preassessment body) w =
    match first_fault env (steps w) try_body_ops with
    | None =>
        (send 200 (success_body (response_received_at env w) p),
         world_after_success env p w)
    | Some (k, msg) =>
        (answer_after_fault env k msg w, world_after_fault env k msg p w)
    end.
Proof.
  intros Hr Hv. cbn [handle]. rewrite Hr, (validate_valid _ _ Hv).
  apply respond_receive_run.
Qed.

Lemma post_success body p w :
  json_readable env body = true ->
  valid_payload body p ->
  first_fault env (steps w) try_body_ops = None ->
  handle env (POST_webhook_preassessment body) w =
    (send 200 (success_body (response_received_at env w) p),
     world_after_success env p w).
Proof. intros Hr Hv Hf. rewrite (post_run body p w Hr Hv), Hf. reflexivity. Qed.

Lemma post_failure body p w k msg :
  json_readable env body = true ->
  valid_payload body p ->
  first_fault env (steps w) try_body_ops = Some (k, msg) ->
  handle env (POST_webhook_preassessment body) w =
    (answer_after_fault env k msg w, world_after_fault env k msg p w).
Proof. intros Hr Hv Hf. rewrite (post_run body p w Hr Hv), Hf. reflexivity. Qed.

(** The success answer is sent as it is exactly when the three
    identifiers can be encoded. *)
Lemma send_success_body p d :
  send 200 (success_body (isoformat d) p) =
    if payload_encodable p then JSONResponse 200 (success_body (isoformat d) p)
    else internal_server_error.
Proof.
  unfold send. pose proof (success_body_encodable (isoformat d) p) as H.
  rewrite utf8_encodable_isoformat in H.
  destruct (payload_encodable p), (json_encodable (success_body (isoformat d) p));
    try reflexivity.
  - destruct H as [_ H]. discriminate H. split; reflexivity.
  - destruct H as [H _]. destruct (H eq_refl) as [_ H']. discriminate H'.
Qed.

Lemma get_received_webhooks_run w :
  handle env GET_webhook_received w =
    (if store_encodable w
     then JSONResponse 200
            (JObj [("total_received", JInt (Z.of_nat (store_count w)));
                   ("webhooks", JArr (JObj <$> received_webhooks w))])
     else internal_server_error, w).
Proof.
  cbn [handle]. unfold respond, get_received_webhooks, received_webhooks_len, bind.
  unfold send. rewrite received_body_encodable. reflexivity.
Qed.

Lemma clear_received_webhooks_run w :
  handle env DELETE_webhook_received w =
    (JSONResponse 200 (cleared_body (store_count w)), set_received_webhooks [] w).
Proof.
  cbn [handle]. unfold respond, clear_received_webhooks, send.
  fold (cleared_body (length (received_webhooks w))).
  rewrite cleared_body_encodable. reflexivity.
Qed.

Lemma health_check_run w :
  handle env GET_health w =
    (JSONResponse 200
       (JObj [("status", JStr "healthy");
              ("webhooks_received", JInt (Z.of_nat (store_count w)))]), w).
Proof. reflexivity. Qed.

Lemma root_run w :
  handle env GET_root w =
    (JSONResponse 200
       (JObj [("message", JStr "Pre-assessment Webhook Receiver");
              ("version", JStr "1.0.0");
              ("endpoint", JStr "POST /webhook/preassessment")]), w).
Proof. reflexivity. Qed.

End Run.

Lemma store_count_after_success env p w :
  store_count (world_after_success env p w) = S (store_count w).
Proof.
  unfold store_count, world_after_success. cbn [received_webhooks].
  rewrite length_app. cbn [length]. lia.
Qed.

Lemma store_after_fault_before env k p w :
  (k <= append_position)%nat -> store_after_fault env k p w = received_webhooks w.
Proof.
  intros Hk. unfold store_after_fault.
  destruct (Nat.leb_spec k append_position); [reflexivity | lia].
Qed.

Lemma store_after_fault_after env k p w :
  (append_position < k)%nat ->
  store_after_fault env k p w = received_webhooks w ++ [stored_record env p w].
Proof.
  intros Hk. unfold store_after_fault.
  destruct (Nat.leb_spec k append_position); [lia | reflexivity].
Qed.

Lemma status_answer_after_fault env k msg w :
  status_code_of (answer_after_fault env k msg w) = 500%nat.
Proof.
  unfold answer_after_fault, send.
  destruct (except_clause_raises env k w); [reflexivity|].
  destruct (json_encodable (error_body msg)); reflexivity.
Qed.

Lemma stored_record_encodable env p w :
  json_encodable (JObj (stored_record env p w)) = payload_encodable p.
Proof.
  pose proof (record_encodable (stored_timestamp env w) p) as H.
  unfold stored_timestamp in H. rewrite utf8_encodable_isoformat in H.
  unfold stored_record, stored_timestamp.
  destruct (payload_encodable p),
    (json_encodable (JObj (expected_record (isoformat (utcnow_at env (S (clock_reads w)))) p)));
    try reflexivity.
  - destruct H as [_ H]. apply H. split; reflexivity.
  - destruct H as [H _]. destruct (H eq_refl) as [_ H']. discriminate H'.
Qed.

Lemma store_encodable_app w store d :
  received_webhooks w = store ++ [d] ->
  store_encodable w = forallb (fun d => json_encodable (JObj d)) store &&
                      json_encodable (JObj d).
Proof.
  intros H. unfold store_encodable. rewrite H, forallb_app. cbn [forallb].
  rewrite andb_true_r. reflexivity.
Qed.

(** ** What a validation report echoes *)






(** ** Ingestion *)

(** C1, as the code has it.  For every valid payload that the reader
    accepts, when no operation of the handler raises, the POST adds
    exactly one record to the store: the three fields of the payload and
    a timestamp read from the server's clock, after the records already
    there.  GET /webhook/received lists this record as its last element,
    with the count one higher, provided every stored string can be
    encoded as UTF-8; otherwise it answers the plain 500.  The POST itself
    is answered 200 exactly when the three identifiers can be encoded. *)
Theorem post_valid_payload_stored env w body p :
  json_readable env body = true ->
  valid_payload body p ->
  first_fault env (steps w) try_body_ops = None ->
  let rw := handle env (POST_webhook_preassessment body) w in
  let g := (handle env GET_webhook_received rw.2).1 in
  let record :=
    [("timestamp", JStr (isoformat (utcnow_at env (S (clock_reads w)))));
     ("organization_id", JStr (organization_id p));
     ("preassessment_id", JStr (preassessment_id p));
     ("regulation_id", JStr (regulation_id p))] in
  store_count rw.2 = S (store_count w) /\
  received_webhooks rw.2 = received_webhooks w ++ [record] /\
  (store_encodable rw.2 = true ->
   response_field "total_received" g = Some (JInt (Z.of_nat (S (store_count w)))) /\
   exists items,
     response_field "webhooks" g = Some (JArr items) /\
     length items = S (store_count w) /\
     last items = Some (JObj record)) /\
  (store_encodable rw.2 = false -> g = PlainTextResponse 500 "Internal Server Error") /\
  (status_code_of rw.1 = 200%nat <-> payload_encodable p = true).
Proof.
  intros Hr Hv Hf rw g record. subst rw g.
  rewrite (post_success env body p w Hr Hv Hf). cbn [fst snd].
  rewrite get_received_webhooks_run. cbn [fst].
  rewrite store_count_after_success.
  split; [reflexivity|]. split; [reflexivity|]. split; [|split].
  - intros ->. split; [reflexivity|].
    exists (JObj <$> received_webhooks (world_after_success env p w)).
    split; [reflexivity|]. split.
    + rewrite length_fmap. apply store_count_after_success.
    + unfold world_after_success. cbn [received_webhooks].
      rewrite fmap_app. cbn [fmap list_fmap]. apply last_snoc.
  - intros ->. reflexivity.
  - unfold response_received_at. rewrite send_success_body.
    destruct (payload_encodable p); split; try reflexivity; discriminate.
Qed.

Lemma post_valid_payload_stored_witness :
  json_readable quiet_env body1 = true /\
  valid_payload body1 payload1 /\
  first_fault quiet_env (steps world_one) try_body_ops = None /\
  received_webhooks
    (handle quiet_env (POST_webhook_preassessment body1) world_one).2
  = [ [("timestamp", JStr "2024-05-17T09:29:59");
       ("organization_id", JStr "org1");
       ("preassessment_id", JStr "pa1");
       ("regulation_id", JStr "reg1")];
      [("timestamp", JStr "2024-05-17T09:30:00.000001");
       ("organization_id", JStr "org1");
       ("preassessment_id", JStr "pa1");
       ("regulation_id", JStr "reg1")] ] /\
  response_field "total_received"
    (handle quiet_env GET_webhook_received
       (handle quiet_env (POST_webhook_preassessment body1) world_one).2).1
  = Some (JInt 2).
Proof.
  split; [reflexivity|]. split; [repeat split|]. split; [reflexivity|].
  pose proof (post_valid_payload_stored quiet_env world_one body1 payload1) as H.
  destruct H as (_ & Hs & Hg & _); [reflexivity | repeat split | reflexivity |].
  split.
  - rewrite Hs. vm_compute. reflexivity.
  - destruct Hg as (Ht & _); [reflexivity|]. rewrite Ht. reflexivity.
Defined.

(** C1, as stated, fails: an identifier may be a string that cannot be
    encoded as UTF-8 (a lone surrogate, which JSON can write).  The POST
    stores the record, and from then on GET /webhook/received answers the
    plain 500 and lists nothing. *)
Lemma post_surrogate_not_listed :
  json_readable quiet_env body_surrogate = true /\
  valid_payload body_surrogate payload_surrogate /\
  first_fault quiet_env (steps initial_world) try_body_ops = None /\
  store_count
    (handle quiet_env (POST_webhook_preassessment body_surrogate) initial_world).2
    = 1%nat /\
  (handle quiet_env GET_webhook_received
     (handle quiet_env (POST_webhook_preassessment body_surrogate) initial_world).2).1
    = PlainTextResponse 500 "Internal Server Error" /\
  ~ lists_payload_last quiet_env body_surrogate payload_surrogate initial_world.
Proof.
  split; [reflexivity|]. split; [repeat split|]. split; [reflexivity|].
  split; [reflexivity|]. split; [reflexivity|].
  intros (_ & ts & items & Hg & _). vm_compute in Hg. discriminate Hg.
Qed.



(** A number and a [null] where strings are expected: both fields are
    reported with what was found there, nothing is stored. *)
Example post_wrong_type_rejected :
  handle quiet_env (POST_webhook_preassessment body_wrong_type) world_one =
    (ValidationErrorResponse
       [mk_error ["body"; "organization_id"] string_type (JInt 42);
        mk_error ["body"; "regulation_id"] string_type JNull],
     world_one).
Proof. vm_compute. reflexivity. Qed.

(** A body with an integer of 4301 digits is refused by the reader, valid
    as its three identifiers are. *)
Example post_huge_int_refused :
  valid_payload body_huge_int payload1 /\
  handle quiet_env (POST_webhook_preassessment body_huge_int) world_one =
    (JSONResponse 400
       (JObj [("detail", JStr "There was an error parsing the body")]),
     world_one).
Proof. split; [repeat split|]. vm_compute. reflexivity. Qed.


(** ** Clearing *)

(** The cleared count can be read back from the message. *)
Lemma cleared_body_inj n m : cleared_body n = cleared_body m -> n = m.
Proof.
  unfold cleared_body. intros H. injection H as H.
  change (pretty n +:+ " webhooks" = pretty m +:+ " webhooks") in H.
  apply string_app_inj_r in H.
  apply (inj pretty) in H. exact H.
Qed.

(** C3. Whatever the store holds, DELETE /webhook/received answers 200 with
    the message "Cleared N webhooks" where N is the number of records the
    store held, leaves the store empty, and a GET /webhook/received that
    follows reports a total of 0. *)
Theorem delete_clears_store env w :
  let rw := handle env DELETE_webhook_received w in
  rw.1 = JSONResponse 200
           (JObj [("status", JStr "success");
                  ("message",
                   JStr ("Cleared " +:+ pretty (store_count w) +:+ " webhooks"))]) /\
  received_webhooks rw.2 = [] /\
  response_field "total_received" (handle env GET_webhook_received rw.2).1
    = Some (JInt 0).
Proof.
  intros rw. subst rw. rewrite clear_received_webhooks_run. cbn [fst snd].
  split; [reflexivity|]. split; [reflexivity|].
  rewrite get_received_webhooks_run. reflexivity.
Qed.

(** The scenario of the specification: two POSTs, then DELETE, then GET. *)
Example delete_after_two_posts :
  (serve quiet_env
     [POST_webhook_preassessment body1; POST_webhook_preassessment body2;
      DELETE_webhook_received; GET_webhook_received] initial_world).1
  !! 2%nat = Some (JSONResponse 200
                 (JObj [("status", JStr "success");
                        ("message", JStr "Cleared 2 webhooks")])).
Proof. vm_compute. reflexivity. Qed.

(** C10. Clearing an empty store succeeds, reports "Cleared 0 webhooks" and
    changes nothing; clearing twice leaves the same world as clearing
    once, and the second answer reports 0. *)
Theorem delete_idempotent env w :
  let once := handle env DELETE_webhook_received w in
  let twice := handle env DELETE_webhook_received once.2 in
  (received_webhooks w = [] ->
   handle env DELETE_webhook_received w =
     (JSONResponse 200
        (JObj [("status", JStr "success");
               ("message", JStr "Cleared 0 webhooks")]), w)) /\
  twice.2 = once.2 /\
  received_webhooks twice.2 = [] /\
  twice.1 = JSONResponse 200
              (JObj [("status", JStr "success");
                     ("message", JStr "Cleared 0 webhooks")]).
Proof.
  intros once twice. subst once twice.
  rewrite !clear_received_webhooks_run. cbn [fst snd].
  split; [|repeat split].
  intros He. unfold store_count, set_received_webhooks. rewrite He.
  destruct w as [store lg c s]. cbn in He. subst store. reflexivity.
Qed.

Lemma delete_idempotent_witness :
  received_webhooks initial_world = [] /\
  handle quiet_env DELETE_webhook_received initial_world =
    (JSONResponse 200
       (JObj [("status", JStr "success");
              ("message", JStr "Cleared 0 webhooks")]), initial_world).
Proof.
  split; [reflexivity|].
  apply (proj1 (delete_idempotent quiet_env initial_world)). reflexivity.
Defined.

(** ** Reading *)

(** C7, as the code has it.  In every world GET /health reports the
    number of records in the store.  GET /webhook/received reports the
    same number as its total whenever it answers 200, which it does
    exactly when every stored string can be encoded as UTF-8; otherwise
    it answers the plain 500 and reports no count. *)
Theorem health_count_matches_total env w :
  response_field "webhooks_received" (handle env GET_health w).1
    = Some (JInt (Z.of_nat (store_count w))) /\
  store_count w = length (received_webhooks w) /\
  (store_encodable w = true ->
   response_field "total_received" (handle env GET_webhook_received w).1
     = Some (JInt (Z.of_nat (store_count w)))) /\
  (status_code_of (handle env GET_webhook_received w).1 = 200%nat <->
   store_encodable w = true) /\
  (store_encodable w = false ->
   (handle env GET_webhook_received w).1
     = PlainTextResponse 500 "Internal Server Error").
Proof.
  rewrite get_received_webhooks_run. cbn [fst].
  split; [reflexivity|]. split; [reflexivity|].
  destruct (store_encodable w).
  - split; [reflexivity|]. split; [split; reflexivity | discriminate].
  - split; [discriminate|]. split; [split; discriminate | reflexivity].
Qed.

(** The state that the POST of a lone surrogate leaves behind. *)
Example world_surrogate_reached :
  (handle quiet_env (POST_webhook_preassessment body_surrogate) initial_world).2
  = mk_world [ [("timestamp", JStr "2024-05-17T09:30:00.000001");
                ("organization_id", JStr lone_surrogate);
                ("preassessment_id", JStr "pa1");
                ("regulation_id", JStr "reg1")] ]
      (success_log "2024-05-17T09:30:00" payload_surrogate) 3 14.
Proof. vm_compute. reflexivity. Qed.

(** C7, as stated, fails in a state the service can reach: once a record
    with a lone surrogate is stored, GET /health answers 200 and counts
    it while GET /webhook/received answers the plain 500. *)
Lemma counts_disagree_on_surrogate :
  (handle quiet_env GET_health
     (handle quiet_env (POST_webhook_preassessment body_surrogate)
        initial_world).2).1
  = JSONResponse 200
      (JObj [("status", JStr "healthy"); ("webhooks_received", JInt 1)]) /\
  (handle quiet_env GET_webhook_received
     (handle quiet_env (POST_webhook_preassessment body_surrogate)
        initial_world).2).1
  = PlainTextResponse 500 "Internal Server Error" /\
  ~ counts_agree quiet_env
      (handle quiet_env (POST_webhook_preassessment body_surrogate)
         initial_world).2.
Proof.
  split; [reflexivity|]. split; [reflexivity|].
  intros (n & _ & Hg & _). vm_compute in Hg. discriminate Hg.
Qed.

(** C8. GET /webhook/received and GET /health leave the world -- store,
    log and counters -- exactly as they found it. *)
Theorem get_and_health_read_only env w :
  (handle env GET_webhook_received w).2 = w /\
  (handle env GET_health w).2 = w.
Proof. split; reflexivity. Qed.

(** ** Append-only store *)

Lemma handle_store_cases env req w :
  let store' := received_webhooks (handle env req w).2 in
  store' = received_webhooks w \/
  (exists p, req <> DELETE_webhook_received /\
             store' = received_webhooks w ++ [stored_record env p w]) \/
  (req = DELETE_webhook_received /\ store' = []).
Proof.
  destruct req as [|body| | |]; cbn zeta;
    try (left; reflexivity); [|right; right; split; reflexivity].
  cbn [handle]. destruct (json_readable env body); [|left; reflexivity].
  destruct (validate body) as [errors|p]; [left; reflexivity|].
  rewrite respond_receive_run.
  destruct (first_fault env (steps w) try_body_ops) as [[k msg]|]; cbn [snd].
  - unfold world_after_fault. cbn [received_webhooks]. unfold store_after_fault.
    destruct (k <=? append_position)%nat; [left; reflexivity|].
    right; left. exists p. split; [discriminate | reflexivity].
  - right; left. exists p. split; [discriminate | reflexivity].
Qed.

(** Every request other than DELETE keeps the stored records, in place. *)
Lemma handle_store_prefix env req w :
  req <> DELETE_webhook_received ->
  received_webhooks w `prefix_of` received_webhooks (handle env req w).2.
Proof.
  intros Hreq.
  destruct (handle_store_cases env req w) as [->|[(p & _ & ->)|(? & _)]].
  - reflexivity.
  - apply prefix_app_r. reflexivity.
  - contradiction.
Qed.

(** A POST is answered 200 exactly when its body is read, is a valid
    payload, no operation raises and the identifiers can be encoded. *)
Lemma post_status_200 env body w :
  status_code_of (handle env (POST_webhook_preassessment body) w).1 = 200%nat ->
  exists p,
    json_readable env body = true /\
    valid_payload body p /\
    first_fault env (steps w) try_body_ops = None /\
    payload_encodable p = true /\
    handle env (POST_webhook_preassessment body) w =
      (JSONResponse 200 (success_body (response_received_at env w) p),
       world_after_success env p w).
Proof.
  intros Hst. destruct (json_readable env body) eqn:Hr.
  - destruct (validate body) as [errors|p] eqn:Hv.
    + cbn [handle] in Hst. rewrite Hr, Hv in Hst. cbn [fst] in Hst.
      destruct (report_encodable env errors); discriminate Hst.
    + apply validate_inr_valid in Hv. exists p.
      rewrite (post_run env body p w Hr Hv) in Hst |- *.
      destruct (first_fault env (steps w) try_body_ops) as [[k msg]|].
      * cbn [fst] in Hst. rewrite status_answer_after_fault in Hst.
        discriminate Hst.
      * unfold response_received_at in *. rewrite send_success_body in Hst |- *.
        destruct (payload_encodable p); [|discriminate Hst].
        split; [reflexivity|]. split; [exact Hv|]. split; [reflexivity|].
        split; reflexivity.
  - cbn [handle] in Hst. rewrite Hr in Hst. discriminate Hst.
Qed.

(** C9. A successful POST leaves every stored record where it was and puts
    the new record at the end; after two successful POSTs the store holds
    both records in the order of the requests, and, started from an empty
    store, GET /webhook/received then reports a total of 2 and lists the
    two records in that order.  No request other than DELETE removes or
    moves a record. *)
Theorem post_appends_in_order env w b1 p1 b2 p2 :
  json_readable env b1 = true ->
  json_readable env b2 = true ->
  valid_payload b1 p1 ->
  valid_payload b2 p2 ->
  first_fault env (steps w) (try_body_ops + try_body_ops) = None ->
  let w1 := (handle env (POST_webhook_preassessment b1) w).2 in
  let w2 := (handle env (POST_webhook_preassessment b2) w1).2 in
  let r1 := stored_record env p1 w in
  let r2 := stored_record env p2 w1 in
  received_webhooks w1 = received_webhooks w ++ [r1] /\
  (forall i d, received_webhooks w !! i = Some d ->
               received_webhooks w1 !! i = Some d) /\
  received_webhooks w2 = received_webhooks w ++ [r1; r2] /\
  (received_webhooks w = [] ->
   status_code_of (handle env (POST_webhook_preassessment b1) w).1 = 200%nat ->
   status_code_of (handle env (POST_webhook_preassessment b2) w1).1 = 200%nat ->
   (handle env GET_webhook_received w2).1 =
     JSONResponse 200
       (JObj [("total_received", JInt 2);
              ("webhooks", JArr [JObj r1; JObj r2])])) /\
  (forall req, req <> DELETE_webhook_received ->
     received_webhooks w `prefix_of` received_webhooks (handle env req w).2).
Proof.
  intros Hr1 Hr2 Hv1 Hv2 Hf w1 w2 r1 r2.
  apply first_fault_None_app in Hf as [Hf1 Hf2].
  assert (Hw1 : w1 = world_after_success env p1 w).
  { subst w1. rewrite (post_success env b1 p1 w Hr1 Hv1 Hf1). reflexivity. }
  assert (Hw2 : w2 = world_after_success env p2 w1).
  { subst w2. rewrite (post_success env b2 p2 w1 Hr2 Hv2); [reflexivity|].
    rewrite Hw1. exact Hf2. }
  assert (Hs1 : received_webhooks w1 = received_webhooks w ++ [r1]).
  { rewrite Hw1. reflexivity. }
  assert (Hs2 : received_webhooks w2 = received_webhooks w ++ [r1; r2]).
  { rewrite Hw2. unfold world_after_success at 1. cbn [received_webhooks].
    rewrite Hs1, <- app_assoc. reflexivity. }
  split; [exact Hs1|]. split.
  { intros i d Hd. rewrite Hs1. apply lookup_app_l_Some, Hd. }
  split; [exact Hs2|]. split.
  { intros He Hst1 Hst2.
    apply post_status_200 in Hst1 as (q1 & _ & Hq1 & _ & He1 & _).
    apply post_status_200 in Hst2 as (q2 & _ & Hq2 & _ & He2 & _).
    assert (q1 = p1) as ->.
    { apply validate_valid in Hq1, Hv1. congruence. }
    assert (q2 = p2) as ->.
    { apply validate_valid in Hq2, Hv2. congruence. }
    rewrite get_received_webhooks_run. unfold store_encodable, store_count.
    rewrite Hs2, He. cbn [app forallb length fmap list_fmap fst].
    subst r1 r2. rewrite !stored_record_encodable, He1, He2. reflexivity. }
  intros req Hreq. apply handle_store_prefix, Hreq.
Qed.

Lemma post_appends_in_order_witness :
  json_readable quiet_env body1 = true /\
  json_readable quiet_env body2 = true /\
  valid_payload body1 payload1 /\
  valid_payload body2 payload2 /\
  first_fault quiet_env (steps initial_world) (try_body_ops + try_body_ops) = None /\
  received_webhooks
    (handle quiet_env (POST_webhook_preassessment body2)
       (handle quiet_env (POST_webhook_preassessment body1) initial_world).2).2
  = [ [("timestamp", JStr "2024-05-17T09:30:00.000001");
       ("organization_id", JStr "org1");
       ("preassessment_id", JStr "pa1");
       ("regulation_id", JStr "reg1")];
      [("timestamp", JStr "2024-05-17T09:30:00.000004");
       ("organization_id", JStr "org2");
       ("preassessment_id", JStr "pa2");
       ("regulation_id", JStr "reg2")] ].
Proof.
  split; [reflexivity|]. split; [reflexivity|].
  split; [repeat split|]. split; [repeat split|]. split; [reflexivity|].
  pose proof (post_appends_in_order quiet_env initial_world
                body1 payload1 body2 payload2) as H.
  destruct H as (_ & _ & H & _);
    [reflexivity | reflexivity | repeat split | repeat split | reflexivity |].
  rewrite H. vm_compute. reflexivity.
Defined.

(** ** Shape of the stored records *)

Lemma record_inv_webhook_data ts p : record_inv (webhook_data_of ts p) = true.
Proof. reflexivity. Qed.

Lemma nonempty_str_field_str_field k d :
  nonempty_str_field k d = true -> str_field k d = true.
Proof.
  unfold nonempty_str_field, str_field.
  destruct (dict_get k d) as [[]|]; intros H; try discriminate H; reflexivity.
Qed.

(** Non-empty identifiers are a stronger requirement. *)
Lemma nonempty_record_inv_record_inv d :
  nonempty_record_inv d = true -> record_inv d = true.
Proof.
  unfold nonempty_record_inv, record_inv. rewrite !andb_true_iff.
  intros [[[Ho Hp] Hr] Ht].
  repeat split; auto using nonempty_str_field_str_field.
Qed.

(** The field that holds the time of ingestion is called [timestamp]; a
    stored record has no [received_at] key. *)
Lemma webhook_data_keys ts p :
  dict_keys (webhook_data_of ts p) =
    ["timestamp"; "organization_id"; "preassessment_id"; "regulation_id"] /\
  dict_get "timestamp" (webhook_data_of ts p) = Some (JStr ts) /\
  dict_get "received_at" (webhook_data_of ts p) = None.
Proof. repeat split. Qed.

(** C4, as the code has it.  Every request keeps this invariant of the
    store: each record binds [organization_id], [preassessment_id] and
    [regulation_id] to strings -- which may be empty -- and [timestamp]
    to a string assigned by the server. *)
Theorem store_inv_preserved env req w :
  store_inv w -> store_inv (handle env req w).2.
Proof.
  unfold store_inv. intros Hinv.
  destruct (handle_store_cases env req w) as [->|[(p & _ & ->)|(_ & ->)]].
  - exact Hinv.
  - apply Forall_app. split; [exact Hinv|].
    apply Forall_singleton, record_inv_webhook_data.
  - constructor.
Qed.

Lemma store_inv_preserved_witness :
  store_inv world_one /\
  store_inv (handle quiet_env (POST_webhook_preassessment body_empty_ids)
               world_one).2 /\
  store_count (handle quiet_env (POST_webhook_preassessment body_empty_ids)
                 world_one).2 = 2%nat.
Proof.
  assert (H1 : store_inv world_one) by (repeat constructor).
  split; [exact H1|]. split; [|reflexivity].
  apply (store_inv_preserved quiet_env
           (POST_webhook_preassessment body_empty_ids) world_one H1).
Defined.

(** C4, as stated, fails: a payload whose identifiers are empty strings is
    accepted and stored, so a store whose identifiers are all non-empty
    does not stay so. *)
Lemma nonempty_store_inv_broken :
  valid_payload body_empty_ids (mk_payload "" "" "") /\
  status_code_of
    (handle quiet_env (POST_webhook_preassessment body_empty_ids) initial_world).1
    = 200%nat /\
  ~ keeps_nonempty_store_inv quiet_env
      (POST_webhook_preassessment body_empty_ids) initial_world.
Proof.
  split; [repeat split|]. split; [reflexivity|].
  intros H. unfold keeps_nonempty_store_inv in H.
  assert (H0 : nonempty_store_inv initial_world) by constructor.
  specialize (H H0). vm_compute in H.
  inversion H as [|d l Hd Hl]. discriminate Hd.
Qed.

(** ** The timestamps of one request *)

(** C5, as the code has it.  Every POST answered 200 echoes the three
    fields of its payload, the same three as in the record it stored;
    its [received_at] is the third clock read of the request, while the
    stored [timestamp] is the second: the two agree exactly when the two
    reads print alike. *)
Theorem post_response_echo env w body :
  status_code_of (handle env (POST_webhook_preassessment body) w).1 = 200%nat ->
  let rw := handle env (POST_webhook_preassessment body) w in
  exists p,
    valid_payload body p /\
    response_field "payload" rw.1 =
      Some (JObj [("organization_id", JStr (organization_id p));
                  ("preassessment_id", JStr (preassessment_id p));
                  ("regulation_id", JStr (regulation_id p))]) /\
    response_field "received_at" rw.1 =
      Some (JStr (isoformat (utcnow_at env (2 + clock_reads w)))) /\
    last (received_webhooks rw.2) =
      Some [("timestamp", JStr (isoformat (utcnow_at env (1 + clock_reads w))));
            ("organization_id", JStr (organization_id p));
            ("preassessment_id", JStr (preassessment_id p));
            ("regulation_id", JStr (regulation_id p))] /\
    last_stored_timestamp rw.2 =
      Some (JStr (isoformat (utcnow_at env (1 + clock_reads w)))) /\
    (echoes_stored_timestamp env body w <->
     isoformat (utcnow_at env (2 + clock_reads w)) =
     isoformat (utcnow_at env (1 + clock_reads w))).
Proof.
  intros Hst rw.
  destruct (post_status_200 env body w Hst) as (p & _ & Hv & _ & _ & Hrw).
  fold rw in Hrw. exists p. split; [exact Hv|].
  assert (Hlast : last (received_webhooks rw.2) =
                  Some [("timestamp", JStr (isoformat (utcnow_at env (1 + clock_reads w))));
                        ("organization_id", JStr (organization_id p));
                        ("preassessment_id", JStr (preassessment_id p));
                        ("regulation_id", JStr (regulation_id p))]).
  { rewrite Hrw. cbn [snd]. unfold world_after_success. cbn [received_webhooks].
    apply last_snoc. }
  assert (Hts : last_stored_timestamp rw.2 =
                Some (JStr (isoformat (utcnow_at env (1 + clock_reads w))))).
  { unfold last_stored_timestamp. rewrite Hlast. reflexivity. }
  assert (Hrecv : response_field "received_at" rw.1 =
                  Some (JStr (isoformat (utcnow_at env (2 + clock_reads w))))).
  { rewrite Hrw. reflexivity. }
  split; [rewrite Hrw; reflexivity|].
  split; [exact Hrecv|]. split; [exact Hlast|]. split; [exact Hts|].
  unfold echoes_stored_timestamp. fold rw. rewrite Hrecv, Hts. split.
  - intros (ts & H1 & H2). congruence.
  - intros ->. eexists. split; reflexivity.
Qed.

Lemma post_response_echo_witness :
  status_code_of
    (handle quiet_env (POST_webhook_preassessment body1) initial_world).1
    = 200%nat /\
  response_field "payload"
    (handle quiet_env (POST_webhook_preassessment body1) initial_world).1
  = Some (JObj [("organization_id", JStr "org1");
                ("preassessment_id", JStr "pa1");
                ("regulation_id", JStr "reg1")]) /\
  response_field "received_at"
    (handle quiet_env (POST_webhook_preassessment body1) initial_world).1
  = Some (JStr "2024-05-17T09:30:00.000002") /\
  last_stored_timestamp
    (handle quiet_env (POST_webhook_preassessment body1) initial_world).2
  = Some (JStr "2024-05-17T09:30:00.000001").
Proof.
  split; [reflexivity|].
  destruct (post_response_echo quiet_env initial_world body1 eq_refl)
    as (p & Hv & Hp & Hr & _ & Hs & _).
  apply validate_valid in Hv. vm_compute in Hv. injection Hv as <-.
  split; [exact Hp|]. split; [rewrite Hr | rewrite Hs]; vm_compute; reflexivity.
Defined.

(** C5, as stated, fails: with a clock that moves between two reads, the
    [received_at] of a successful response is not the stored timestamp. *)
Lemma received_at_differs_from_stored :
  status_code_of
    (handle quiet_env (POST_webhook_preassessment body1) initial_world).1
    = 200%nat /\
  ~ echoes_stored_timestamp quiet_env body1 initial_world.
Proof.
  split; [reflexivity|].
  intros (ts & H1 & H2). vm_compute in H1, H2. congruence.
Qed.

(** ** Internal failures *)

(** C6, as the code has it.  When an operation of the [try] body raises
    (number [k] being the first, with text [msg]) the POST is answered
    with status 500 and a generic failure message: the JSON detail
    "Failed to process webhook: " followed by [msg], or the server's
    plain "Internal Server Error" when the [logger.error] of the [except]
    clause raises too or the detail cannot be encoded.  The store is
    unchanged when the failure comes no later than the append (positions
    0 to 9); when it comes after the append (positions 10 to 13) the
    record of the request stays in the store.  So it does when nothing
    raises in the handler but the answer cannot be encoded: the plain
    500 is sent and the record is stored. *)
Theorem post_internal_failure env w body p :
  json_readable env body = true ->
  valid_payload body p ->
  let rw := handle env (POST_webhook_preassessment body) w in
  let record :=
    [("timestamp", JStr (isoformat (utcnow_at env (S (clock_reads w)))));
     ("organization_id", JStr (organization_id p));
     ("preassessment_id", JStr (preassessment_id p));
     ("regulation_id", JStr (regulation_id p))] in
  (forall k msg,
     first_fault env (steps w) try_body_ops = Some (k, msg) ->
     status_code_of rw.1 = 500%nat /\
     (rw.1 = JSONResponse 500
               (JObj [("detail", JStr ("Failed to process webhook: " +:+ msg))]) \/
      rw.1 = PlainTextResponse 500 "Internal Server Error") /\
     (raises_at env (S k + steps w) = None -> utf8_encodable msg = true ->
      rw.1 = JSONResponse 500
               (JObj [("detail", JStr ("Failed to process webhook: " +:+ msg))])) /\
     ((k <= append_position)%nat -> received_webhooks rw.2 = received_webhooks w) /\
     ((append_position < k)%nat ->
      received_webhooks rw.2 = received_webhooks w ++ [record])) /\
  (first_fault env (steps w) try_body_ops = None ->
   payload_encodable p = false ->
   rw.1 = PlainTextResponse 500 "Internal Server Error" /\
   received_webhooks rw.2 = received_webhooks w ++ [record]).
Proof.
  intros Hr Hv rw record. subst rw record. split.
  - intros k msg Hf. rewrite (post_failure env body p w k msg Hr Hv Hf).
    cbn [fst snd]. split; [apply status_answer_after_fault|].
    unfold answer_after_fault, except_clause_raises, send.
    rewrite error_body_encodable. unfold error_body.
    split; [|split; [|split]].
    + destruct (raises_at env (S k + steps w)); [right; reflexivity|].
      destruct (utf8_encodable msg); [left | right]; reflexivity.
    + intros -> ->. reflexivity.
    + intros Hk. unfold world_after_fault. cbn [received_webhooks].
      apply store_after_fault_before, Hk.
    + intros Hk. unfold world_after_fault. cbn [received_webhooks].
      rewrite store_after_fault_after by exact Hk. reflexivity.
  - intros Hf He. rewrite (post_success env body p w Hr Hv Hf). cbn [fst snd].
    unfold response_received_at. rewrite send_success_body, He.
    split; reflexivity.
Qed.

Lemma post_internal_failure_witness :
  json_readable (faulty_env 3 "clock unavailable") body1 = true /\
  valid_payload body1 payload1 /\
  first_fault (faulty_env 3 "clock unavailable") (steps initial_world) try_body_ops
    = Some (3%nat, "clock unavailable") /\
  (handle (faulty_env 3 "clock unavailable")
     (POST_webhook_preassessment body1) initial_world).1
  = JSONResponse 500
      (JObj [("detail", JStr "Failed to process webhook: clock unavailable")]) /\
  received_webhooks
    (handle (faulty_env 3 "clock unavailable")
       (POST_webhook_preassessment body1) initial_world).2 = [].
Proof.
  split; [reflexivity|]. split; [repeat split|]. split; [reflexivity|].
  pose proof (post_internal_failure (faulty_env 3 "clock unavailable")
                initial_world body1 payload1) as H.
  destruct H as (H & _); [reflexivity | repeat split |].
  destruct (H 3%nat "clock unavailable" eq_refl) as (_ & _ & Hr & Hs & _).
  split; [apply Hr; reflexivity|]. apply Hs. unfold append_position. lia.
Defined.

(** When logging keeps failing, the [except] clause fails at its
    [logger.error]: no ERROR line, and the plain 500. *)
Example post_failure_while_logging_fails :
  handle (broken_env 5 "disk full") (POST_webhook_preassessment body1) initial_world
  = (PlainTextResponse 500 "Internal Server Error",
     mk_world []
       [(INFO, str_mul "=" 80);
        (INFO, "PRE-ASSESSMENT WEBHOOK RECEIVED");
        (INFO, str_mul "=" 80);
        (INFO, "Timestamp: 2024-05-17T09:30:00")]
       1 7).
Proof. vm_compute. reflexivity. Qed.

(** C6, as stated, fails: when an operation after the append raises, the
    POST answers 500 and yet the record has been stored. *)
Lemma failure_after_append_keeps_record :
  (handle (faulty_env 10 "disk full")
     (POST_webhook_preassessment body1) initial_world).1
  = JSONResponse 500
      (JObj [("detail", JStr "Failed to process webhook: disk full")]) /\
  store_count
    (handle (faulty_env 10 "disk full")
       (POST_webhook_preassessment body1) initial_world).2 = 1%nat /\
  ~ failure_leaves_store_unchanged (faulty_env 10 "disk full") body1 initial_world.
Proof.
  split; [reflexivity|]. split; [reflexivity|].
  intros H. unfold failure_leaves_store_unchanged in H.
  specialize (H eq_refl). vm_compute in H. discriminate H.
Qed.

(** * The whole service *)

(** ** What a POST writes to the log *)

(** X1. A successful POST appends exactly ten INFO lines to the log, in
    program order, among them one line for each identifier of the
    payload; it reads the clock three times, and the time it logs is the
    first read (the stored timestamp is the second and [received_at] the
    third). *)
Theorem post_success_log env w body p :
  json_readable env body = true ->
  valid_payload body p ->
  first_fault env (steps w) try_body_ops = None ->
  let w' := (handle env (POST_webhook_preassessment body) w).2 in
  log w' = log w ++ success_log (isoformat (utcnow_at env (clock_reads w))) p /\
  length (log w') = (length (log w) + 10)%nat /\
  clock_reads w' = (3 + clock_reads w)%nat /\
  (INFO, "Timestamp: " +:+ isoformat (utcnow_at env (clock_reads w))) ∈ log w' /\
  (INFO, "Organization ID: " +:+ organization_id p) ∈ log w' /\
  (INFO, "Pre-assessment ID: " +:+ preassessment_id p) ∈ log w' /\
  (INFO, "Regulation ID: " +:+ regulation_id p) ∈ log w' /\
  last (log w') = Some (INFO, str_mul "=" 80).
Proof.
  intros Hr Hv Hf w'. subst w'. rewrite (post_success env body p w Hr Hv Hf).
  cbn [snd]. unfold world_after_success. cbn [log clock_reads].
  split; [reflexivity|]. split; [rewrite length_app; reflexivity|].
  split; [reflexivity|].
  repeat split; try (apply elem_of_app; right; unfold success_log;
                     repeat first [apply list_elem_of_here | apply list_elem_of_further]).
  unfold success_log.
  change (last (log w ++
                [(INFO, str_mul "=" 80); (INFO, "PRE-ASSESSMENT WEBHOOK RECEIVED");
                 (INFO, str_mul "=" 80);
                 (INFO, "Timestamp: " +:+ isoformat (utcnow_at env (clock_reads w)));
                 (INFO, "Organization ID: " +:+ organization_id p);
                 (INFO, "Pre-assessment ID: " +:+ preassessment_id p);
                 (INFO, "Regulation ID: " +:+ regulation_id p);
                 (INFO, str_mul "=" 80); (INFO, "WEBHOOK RECEIVED SUCCESSFULLY")] ++
                [(INFO, str_mul "=" 80)]) = Some (INFO, str_mul "=" 80)).
  rewrite app_assoc. apply last_snoc.
Qed.

Lemma post_success_log_witness :
  json_readable quiet_env body1 = true /\
  valid_payload body1 payload1 /\
  first_fault quiet_env (steps world_one) try_body_ops = None /\
  length (log (handle quiet_env (POST_webhook_preassessment body1) world_one).2)
    = 10%nat.
Proof.
  split; [reflexivity|]. split; [repeat split|]. split; [reflexivity|].
  pose proof (post_success_log quiet_env world_one body1 payload1) as H.
  destruct H as (_ & H & _); [reflexivity | repeat split | reflexivity |].
  exact H.
Defined.

(** X2. When operation number [k] of the [try] body is the first to
    raise, the log holds the INFO lines of the operations that ran before
    it.  If the [logger.error] of the [except] clause then runs, one
    ERROR line with the text of the exception follows and is the last
    line; if it raises as well, no ERROR line is written and the client
    gets the plain 500.  Either way the clock has been read once for each
    [datetime.utcnow()] that ran, and the request has performed [k + 2]
    operations. *)
Theorem post_failure_log env w body p k msg :
  json_readable env body = true ->
  valid_payload body p ->
  first_fault env (steps w) try_body_ops = Some (k, msg) ->
  let rw := handle env (POST_webhook_preassessment body) w in
  let infos :=
    take (infos_before k)
      (success_log (isoformat (utcnow_at env (clock_reads w))) p) in
  (raises_at env (S k + steps w) = None ->
   log rw.2 = log w ++ infos ++ [(ERROR, "Error processing webhook: " +:+ msg)] /\
   last (log rw.2) = Some (ERROR, "Error processing webhook: " +:+ msg)) /\
  (forall msg2, raises_at env (S k + steps w) = Some msg2 ->
   log rw.2 = log w ++ infos /\
   rw.1 = PlainTextResponse 500 "Internal Server Error") /\
  (length (log rw.2) <= length (log w) + 11)%nat /\
  clock_reads rw.2 = (clocks_before k + clock_reads w)%nat /\
  steps rw.2 = (S (S k) + steps w)%nat /\
  (k < try_body_ops)%nat.
Proof.
  intros Hr Hv Hf rw infos. subst rw infos.
  rewrite (post_failure env body p w k msg Hr Hv Hf). cbn [fst snd].
  unfold world_after_fault, answer_after_fault, except_clause_raises, error_line.
  cbn [log clock_reads steps].
  split; [|split; [|split; [|split; [|split]]]].
  - intros ->. split; [reflexivity|]. rewrite app_assoc. apply last_snoc.
  - intros msg2 ->. rewrite app_nil_r. split; reflexivity.
  - rewrite !length_app, length_take.
    pose proof (infos_before_le k).
    destruct (raises_at env (S k + steps w)); cbn [length]; lia.
  - reflexivity.
  - reflexivity.
  - apply first_fault_Some in Hf. apply Hf.
Qed.

Lemma post_failure_log_witness :
  json_readable (faulty_env 5 "handler closed") body1 = true /\
  valid_payload body1 payload1 /\
  first_fault (faulty_env 5 "handler closed") (steps initial_world) try_body_ops
    = Some (5%nat, "handler closed") /\
  log (handle (faulty_env 5 "handler closed")
         (POST_webhook_preassessment body1) initial_world).2
  = [(INFO, str_mul "=" 80);
     (INFO, "PRE-ASSESSMENT WEBHOOK RECEIVED");
     (INFO, str_mul "=" 80);
     (INFO, "Timestamp: 2024-05-17T09:30:00");
     (ERROR, "Error processing webhook: handler closed")].
Proof.
  split; [reflexivity|]. split; [repeat split|]. split; [reflexivity|].
  pose proof (post_failure_log (faulty_env 5 "handler closed") initial_world
                body1 payload1 5 "handler closed") as H.
  destruct H as (H & _); [reflexivity | repeat split | reflexivity |].
  destruct H as (H & _); [reflexivity|].
  rewrite H. vm_compute. reflexivity.
Defined.

(** ** Status codes *)


(** ** What the other routes see and touch *)

(** X4. The answer of every route other than the POST is a function of
    the stored records alone: two worlds that hold the same records give
    the same answer to GET /, GET /webhook/received, DELETE
    /webhook/received and GET /health, whatever has been logged, however
    often the clock has been read, and in whatever environment. *)
Theorem non_post_answer_depends_on_store env1 env2 req w1 w2 :
  is_post req = false ->
  received_webhooks w1 = received_webhooks w2 ->
  (handle env1 req w1).1 = (handle env2 req w2).1.
Proof.
  intros Hreq Hstore. destruct req; try discriminate Hreq.
  - reflexivity.
  - rewrite !get_received_webhooks_run. unfold store_count, store_encodable.
    rewrite Hstore. reflexivity.
  - rewrite !clear_received_webhooks_run. unfold store_count.
    rewrite Hstore. reflexivity.
  - rewrite !health_check_run. unfold store_count.
    rewrite Hstore. reflexivity.
Qed.

Lemma non_post_answer_depends_on_store_witness :
  is_post GET_webhook_received = false /\
  received_webhooks world_one =
    received_webhooks
      (mk_world (received_webhooks world_one) [(ERROR, "earlier failure")] 7 31) /\
  (handle quiet_env GET_webhook_received world_one).1 =
  (handle (faulty_env 0 "down") GET_webhook_received
     (mk_world (received_webhooks world_one) [(ERROR, "earlier failure")] 7 31)).1.
Proof.
  split; [reflexivity|]. split; [reflexivity|].
  apply (non_post_answer_depends_on_store quiet_env (faulty_env 0 "down")
           GET_webhook_received world_one
           (mk_world (received_webhooks world_one) [(ERROR, "earlier failure")] 7 31));
    reflexivity.
Defined.

(** X5. The log only grows: every request leaves the lines already
    logged in place, and DELETE /webhook/received clears the store
    without touching the log.  Only a POST logs, reads the clock or
    performs an operation that may raise; GET / changes nothing at all. *)
Theorem log_append_only env req w :
  log w `prefix_of` log (handle env req w).2 /\
  (is_post req = false ->
   log (handle env req w).2 = log w /\
   clock_reads (handle env req w).2 = clock_reads w /\
   steps (handle env req w).2 = steps w) /\
  (handle env GET_root w).2 = w.
Proof.
  split; [|split; [|reflexivity]].
  - destruct req as [|body| | |]; try reflexivity.
    cbn [handle]. destruct (json_readable env body); [|reflexivity].
    destruct (validate body) as [errors|p]; [reflexivity|].
    rewrite respond_receive_run.
    destruct (first_fault env (steps w) try_body_ops) as [[k msg]|]; cbn [snd].
    + unfold world_after_fault. cbn [log]. apply prefix_app_r. reflexivity.
    + unfold world_after_success. cbn [log]. apply prefix_app_r. reflexivity.
  - intros Hreq. destruct req; try discriminate Hreq; repeat split.
Qed.

(** X6. No request adds more than one record; only a POST can make the
    count grow and only DELETE /webhook/received can make it shrink,
    and then it drops to 0. *)
Theorem store_count_step env req w :
  (store_count (handle env req w).2 <= S (store_count w))%nat /\
  (store_count w < store_count (handle env req w).2 -> is_post req = true)%nat /\
  (store_count (handle env req w).2 < store_count w ->
   req = DELETE_webhook_received /\ store_count (handle env req w).2 = 0)%nat.
Proof.
  unfold store_count.
  destruct (handle_store_cases env req w) as [Hs|[(p & Hreq & Hs)|(Hreq & Hs)]];
    cbn zeta in Hs; rewrite Hs.
  - split; [lia|]. split; intros; lia.
  - rewrite length_app. cbn [length]. split; [lia|]. split; [|intros; lia].
    intros _. destruct req as [|body| | |]; try reflexivity.
    + cbn in Hs. apply (f_equal length) in Hs. rewrite length_app in Hs.
      cbn in Hs. lia.
    + cbn in Hs. apply (f_equal length) in Hs. rewrite length_app in Hs.
      cbn in Hs. lia.
    + contradiction.
    + cbn in Hs. apply (f_equal length) in Hs. rewrite length_app in Hs.
      cbn in Hs. lia.
  - cbn [length]. split; [lia|]. split; [intros; lia|]. intros _.
    split; [exact Hreq | reflexivity].
Qed.

(** ** Validation in detail *)





(** X8. For bodies that the reader accepts and that pass validation, a
    POST depends on the body only through the three identifiers: two
    such bodies with the same identifiers get the same answer and leave
    the same world, so extra keys and the order of the members make no
    difference to an accepted request. *)
Theorem post_reads_three_keys env w b1 b2 p :
  json_readable env b1 = true ->
  json_readable env b2 = true ->
  valid_payload b1 p ->
  valid_payload b2 p ->
  handle env (POST_webhook_preassessment b1) w =
  handle env (POST_webhook_preassessment b2) w.
Proof.
  intros Hr1 Hr2 Hv1 Hv2.
  rewrite (post_run env b1 p w Hr1 Hv1), (post_run env b2 p w Hr2 Hv2).
  reflexivity.
Qed.

Lemma post_reads_three_keys_witness :
  json_readable quiet_env body1 = true /\
  json_readable quiet_env (JObj body1_reordered) = true /\
  valid_payload body1 payload1 /\
  valid_payload (JObj body1_reordered) payload1 /\
  handle quiet_env (POST_webhook_preassessment body1) initial_world =
  handle quiet_env (POST_webhook_preassessment (JObj body1_reordered)) initial_world.
Proof.
  split; [reflexivity|]. split; [reflexivity|].
  split; [repeat split|]. split; [repeat split|].
  apply (post_reads_three_keys quiet_env initial_world body1
           (JObj body1_reordered) payload1);
    first [reflexivity | repeat split].
Defined.

(** ** Reachable states *)

Lemma serve_cons env req reqs w :
  serve env (req :: reqs) w =
    ((handle env req w).1 :: (serve env reqs (handle env req w).2).1,
     (serve env reqs (handle env req w).2).2).
Proof.
  cbn [serve]. destruct (handle env req w) as [r w']. cbn [fst snd].
  destruct (serve env reqs w') as [rs w'']. reflexivity.
Qed.

Lemma handle_keeps_webhook_records env req w :
  Forall is_webhook_record (received_webhooks w) ->
  Forall is_webhook_record (received_webhooks (handle env req w).2).
Proof.
  intros Hinv.
  destruct (handle_store_cases env req w) as [->|[(p & _ & ->)|(_ & ->)]].
  - exact Hinv.
  - apply Forall_app. split; [exact Hinv|].
    apply Forall_singleton. eexists _, p. reflexivity.
  - constructor.
Qed.

Lemma serve_keeps_webhook_records env reqs w :
  Forall is_webhook_record (received_webhooks w) ->
  Forall is_webhook_record (received_webhooks (serve env reqs w).2).
Proof.
  revert w. induction reqs as [|req reqs IH]; intros w Hinv; [exact Hinv|].
  rewrite serve_cons. cbn [snd]. apply IH, handle_keeps_webhook_records, Hinv.
Qed.

(** X9. In every state the service can reach from its start, whatever
    requests it has served and whatever failed on the way, each stored
    record has exactly the keys timestamp, organization_id,
    preassessment_id and regulation_id, in this order and each bound to a
    string; and a stored record sent back as the body of a POST passes
    validation with the same three identifiers. *)
Theorem reachable_records_shape env reqs :
  Forall
    (fun d =>
       dict_keys d =
         ["timestamp"; "organization_id"; "preassessment_id"; "regulation_id"] /\
       record_inv d = true /\
       exists ts p, d = webhook_data_of ts p /\ validate (JObj d) = inr p)
    (received_webhooks (serve env reqs initial_world).2).
Proof.
  assert (H0 : Forall is_webhook_record (received_webhooks initial_world))
    by constructor.
  apply (serve_keeps_webhook_records env reqs) in H0.
  eapply Forall_impl; [exact H0|].
  intros d (ts & p & ->). split; [reflexivity|]. split; [reflexivity|].
  exists ts, p. split; [reflexivity|]. destruct p; reflexivity.
Qed.

(** ** Acknowledgements *)

(** X10. A 200 answer to a POST is a sound acknowledgement: the body was
    a valid payload and its record is the last one of the store, right
    after the records that were there.  A 422 answer means that nothing
    at all has changed. *)
Theorem post_ack_sound env w body :
  status_code_of (handle env (POST_webhook_preassessment body) w).1 = 200%nat ->
  exists p,
    valid_payload body p /\
    first_fault env (steps w) try_body_ops = None /\
    received_webhooks (handle env (POST_webhook_preassessment body) w).2 =
      received_webhooks w ++ [stored_record env p w] /\
    (handle env (POST_webhook_preassessment body) w).1 =
      JSONResponse 200 (success_body (response_received_at env w) p).
Proof.
  intros Hst.
  destruct (post_status_200 env body w Hst) as (p & _ & Hv & Hf & _ & Hrw).
  exists p. split; [exact Hv|]. split; [exact Hf|].
  rewrite Hrw. split; reflexivity.
Qed.

Lemma post_ack_sound_witness :
  status_code_of (handle quiet_env (POST_webhook_preassessment body2) world_one).1
    = 200%nat /\
  store_count (handle quiet_env (POST_webhook_preassessment body2) world_one).2
    = 2%nat.
Proof.
  split; [reflexivity|].
  destruct (post_ack_sound quiet_env world_one body2 eq_refl)
    as (p & _ & _ & Hs & _).
  unfold store_count. rewrite Hs, length_app. reflexivity.
Defined.

(** ** Many requests *)

(** X11. Any number of POSTs with valid payloads that the reader accepts,
    served one after the other while no operation raises, add one record
    each: the count grows by the number of requests, and the store gains,
    in the order of the requests, the three identifiers of each payload
    with the second clock read of its request as timestamp -- equal
    payloads included, nothing is deduplicated.  Each request is answered
    200 when its identifiers can be encoded and with the plain 500 when
    they cannot, and is stored in both cases. *)
Theorem posts_accumulate env bodies ps w :
  Forall (fun b => json_readable env b = true) bodies ->
  Forall2 valid_payload bodies ps ->
  first_fault env (steps w) (try_body_ops * length bodies) = None ->
  let rw := serve env (POST_webhook_preassessment <$> bodies) w in
  length rw.1 = length bodies /\
  Forall2 (fun r p => status_code_of r = if payload_encodable p then 200%nat
                                         else 500%nat) rw.1 ps /\
  store_count rw.2 = (store_count w + length bodies)%nat /\
  received_webhooks rw.2 = received_webhooks w ++ imap (nth_record env w) ps.
Proof.
  intros Hr Hv. revert w Hr.
  induction Hv as [|body p bodies ps Hbody Hrest IH]; intros w Hr Hf; cbn zeta.
  - cbn. repeat split; [constructor | lia | rewrite app_nil_r; reflexivity].
  - apply Forall_cons in Hr as [Hr1 Hr].
    cbn [length] in Hf.
    replace (try_body_ops * S (length bodies))%nat
      with (try_body_ops + try_body_ops * length bodies)%nat in Hf by lia.
    apply first_fault_None_app in Hf as [Hf1 Hf2].
    rewrite fmap_cons, serve_cons.
    rewrite (post_success env body p w Hr1 Hbody Hf1). cbn [fst snd].
    specialize (IH (world_after_success env p w) Hr Hf2).
    cbn zeta in IH. destruct IH as (Hlen & Hst & Hcount & Hstore).
    split; [cbn [length]; rewrite Hlen; reflexivity|].
    split.
    { constructor; [|exact Hst].
      unfold response_received_at. rewrite send_success_body.
      destruct (payload_encodable p); reflexivity. }
    split.
    { rewrite Hcount, store_count_after_success. cbn [length]. lia. }
    rewrite Hstore. unfold world_after_success at 1. cbn [received_webhooks].
    rewrite <- app_assoc. f_equal. cbn [app imap]. f_equal; try reflexivity.
    apply imap_ext. intros i q _. unfold nth_record, world_after_success.
    cbn [clock_reads compose]. do 3 f_equal. lia.
Qed.

Lemma posts_accumulate_witness :
  Forall (fun b => json_readable quiet_env b = true) [body1; body1; body_surrogate] /\
  Forall2 valid_payload [body1; body1; body_surrogate]
    [payload1; payload1; payload_surrogate] /\
  first_fault quiet_env (steps initial_world)
    (try_body_ops * length [body1; body1; body_surrogate]) = None /\
  received_webhooks
    (serve quiet_env
       (POST_webhook_preassessment <$> [body1; body1; body_surrogate])
       initial_world).2
  = [ [("timestamp", JStr "2024-05-17T09:30:00.000001");
       ("organization_id", JStr "org1");
       ("preassessment_id", JStr "pa1");
       ("regulation_id", JStr "reg1")];
      [("timestamp", JStr "2024-05-17T09:30:00.000004");
       ("organization_id", JStr "org1");
       ("preassessment_id", JStr "pa1");
       ("regulation_id", JStr "reg1")];
      [("timestamp", JStr "2024-05-17T09:30:00.000007");
       ("organization_id", JStr lone_surrogate);
       ("preassessment_id", JStr "pa1");
       ("regulation_id", JStr "reg1")] ] /\
  status_code_of <$>
    (serve quiet_env
       (POST_webhook_preassessment <$> [body1; body1; body_surrogate])
       initial_world).1
  = [200; 200; 500]%nat.
Proof.
  assert (Hr : Forall (fun b => json_readable quiet_env b = true)
                 [body1; body1; body_surrogate]).
  { repeat constructor. }
  assert (Hv : Forall2 valid_payload [body1; body1; body_surrogate]
                 [payload1; payload1; payload_surrogate]).
  { repeat constructor. }
  split; [exact Hr|]. split; [exact Hv|]. split; [reflexivity|].
  destruct (posts_accumulate quiet_env _ _ initial_world Hr Hv eq_refl)
    as (_ & _ & _ & Hs).
  split; [rewrite Hs; vm_compute; reflexivity | vm_compute; reflexivity].
Defined.

(** ** The printed form of a timestamp *)

Lemma str_mul_length s n :
  String.length (str_mul s n) = (n * String.length s)%nat.
Proof.
  induction n as [|n IH]; [reflexivity|].
  change (str_mul s (S n)) with (s +:+ str_mul s n).
  rewrite string_length_app, IH. reflexivity.
Qed.

Lemma zfill_length width s :
  (String.length s <= width)%nat -> String.length (zfill width s) = width.
Proof.
  intros H. unfold zfill. rewrite string_length_app, str_mul_length.
  cbn [String.length]. lia.
Qed.

Lemma pretty_N_go_length width x s :
  (x < 10 ^ N.of_nat width)%N ->
  (String.length (pretty_N_go x s) <= width + String.length s)%nat.
Proof.
  revert x s. induction width as [|width IH]; intros x s Hx.
  - assert (x = 0%N) as -> by (cbn in Hx; lia).
    rewrite pretty_N_go_0. lia.
  - destruct (decide (x = 0%N)) as [->|Hne].
    + rewrite pretty_N_go_0. lia.
    + rewrite pretty_N_go_step by lia.
      etrans; [apply IH|].
      * rewrite Nat2N.inj_succ, N.pow_succ_r' in Hx.
        apply N.Div0.div_lt_upper_bound. lia.
      * cbn [String.length]. lia.
Qed.

Lemma pretty_N_length width (x : N) :
  (0 < width)%nat -> (x < 10 ^ N.of_nat width)%N ->
  (String.length (pretty x) <= width)%nat.
Proof.
  intros Hw Hx. unfold pretty, pretty_N.
  destruct (decide (x = 0%N)); [cbn; lia|].
  etrans; [apply (pretty_N_go_length width), Hx|]. cbn [String.length]. lia.
Qed.

(** X12. The timestamps of the service have a fixed width: the printed
    form of a clock value is 19 characters long (YYYY-MM-DDTHH:MM:SS)
    when its microsecond field is zero and 26 characters long otherwise,
    the fraction being left out exactly when it is zero. *)
Theorem isoformat_length d :
  valid_datetime d ->
  String.length (isoformat d) =
    if decide (microsecond d = 0%N) then 19%nat else 26%nat.
Proof.
  intros (Hy & Hmo & Hd & Hh & Hmi & Hs & Hus). unfold isoformat.
  rewrite !string_length_app.
  rewrite (zfill_length 4), !(zfill_length 2);
    try (apply pretty_N_length; [lia | cbn; lia]).
  destruct (decide (microsecond d = 0%N)); [reflexivity|].
  rewrite string_length_app, (zfill_length 6);
    [reflexivity | apply pretty_N_length; [lia | cbn; lia]].
Qed.

Lemma isoformat_length_witness :
  valid_datetime (sample_clock 1) /\
  String.length (isoformat (sample_clock 1)) = 26%nat.
Proof.
  assert (Hv : valid_datetime (sample_clock 1)).
  { unfold valid_datetime. cbn. lia. }
  split; [exact Hv|]. apply (isoformat_length _ Hv).
Defined.

(** ** Retrying after a failure *)

(** X13. When a POST is answered 500 because an operation of its handler
    raised and the sender repeats it successfully, the store ends with
    whatever the failed attempt left followed by the record of the retry:
    one record when the failure came no later than the append, and two
    records with the same identifiers when it came after the append. *)
Theorem retry_after_failure env w body p k msg :
  json_readable env body = true ->
  valid_payload body p ->
  first_fault env (steps w) try_body_ops = Some (k, msg) ->
  let first := handle env (POST_webhook_preassessment body) w in
  let retry := handle env (POST_webhook_preassessment body) first.2 in
  status_code_of retry.1 = 200%nat ->
  status_code_of first.1 = 500%nat /\
  received_webhooks retry.2 =
    store_after_fault env k p w ++ [stored_record env p first.2] /\
  ((k <= append_position)%nat ->
   store_count retry.2 = S (store_count w)) /\
  ((append_position < k)%nat ->
   received_webhooks retry.2 =
     received_webhooks w ++ [stored_record env p w; stored_record env p first.2] /\
   store_count retry.2 = S (S (store_count w))).
Proof.
  intros Hr Hv Hf first retry Hst.
  assert (H1 : first = (answer_after_fault env k msg w,
                        world_after_fault env k msg p w)).
  { subst first. apply post_failure; assumption. }
  destruct (post_status_200 env body first.2 Hst) as (q & _ & Hq & _ & _ & H2).
  fold retry in H2.
  assert (q = p) as ->.
  { apply validate_valid in Hq, Hv. congruence. }
  assert (Hs : received_webhooks retry.2 =
               store_after_fault env k p w ++ [stored_record env p first.2]).
  { rewrite H2. cbn [snd]. unfold world_after_success. cbn [received_webhooks].
    rewrite H1 at 1. reflexivity. }
  split; [rewrite H1; apply status_answer_after_fault|].
  split; [exact Hs|]. split; intros Hk; unfold store_count; rewrite Hs.
  - rewrite store_after_fault_before by exact Hk.
    rewrite length_app. cbn [length]. lia.
  - rewrite store_after_fault_after by exact Hk. rewrite <- app_assoc.
    split; [reflexivity|]. rewrite !length_app. cbn [length]. lia.
Qed.

Lemma retry_after_failure_witness :
  json_readable (faulty_env 11 "stream closed") body1 = true /\
  valid_payload body1 payload1 /\
  first_fault (faulty_env 11 "stream closed") (steps initial_world) try_body_ops
    = Some (11%nat, "stream closed") /\
  status_code_of
    (handle (faulty_env 11 "stream closed") (POST_webhook_preassessment body1)
       (handle (faulty_env 11 "stream closed")
          (POST_webhook_preassessment body1) initial_world).2).1 = 200%nat /\
  received_webhooks
    (handle (faulty_env 11 "stream closed") (POST_webhook_preassessment body1)
       (handle (faulty_env 11 "stream closed")
          (POST_webhook_preassessment body1) initial_world).2).2
  = [ [("timestamp", JStr "2024-05-17T09:30:00.000001");
       ("organization_id", JStr "org1");
       ("preassessment_id", JStr "pa1");
       ("regulation_id", JStr "reg1")];
      [("timestamp", JStr "2024-05-17T09:30:00.000003");
       ("organization_id", JStr "org1");
       ("preassessment_id", JStr "pa1");
       ("regulation_id", JStr "reg1")] ].
Proof.
  split; [reflexivity|]. split; [repeat split|]. split; [reflexivity|].
  split; [reflexivity|].
  pose proof (retry_after_failure (faulty_env 11 "stream closed") initial_world
                body1 payload1 11 "stream closed") as H.
  destruct H as (_ & _ & _ & H);
    [reflexivity | repeat split | reflexivity | reflexivity |].
  destruct H as (H & _); [unfold append_position; lia|].
  rewrite H. vm_compute. reflexivity.
Defined.
